(** * Panel: the application manager (src/models/app_manager.py)

    A shallow embedding of [AppManager]: the settings loader and saver, the
    process registry ([start_app], [stop_app], [is_app_running]) and the
    schedule engine ([setup_schedules], [check_monthly_schedule],
    [scheduled_app_run] and the handlers it posts).

    Python values are dynamically typed, so settings are ordered dictionaries
    of [Py.value]; Python exceptions are an explicit [Exn] result; the Qt
    event queue, the [QProcess] objects and the printed log are fields of the
    manager state.  Strings are byte strings: case mapping and white space
    are the ASCII ones. *)

From Stdlib Require Import ZArith Ascii String List Bool Lia.
From Stdlib Require Import DecimalString DecimalZ.
From stdpp Require Import base option list gmap strings.

Local Open Scope string_scope.
Local Open Scope Z_scope.

(** ** Python built-ins used by the manager *)

Module Py.

Inductive value :=
| PyNone
| PyStr (s : string)
| PyBool (b : bool)
| PyInt (n : Z).

Inductive exn :=
| KeyError
| IndexError
| TypeError
| AttributeError
| ValueError
| ScheduleValueError.

Inductive result (A : Type) :=
| Ok (a : A)
| Exn (e : exn).
Arguments Ok {A} a.
Arguments Exn {A} e.

(** [bool(v)] *)
Definition truthy (v : value) : bool :=
  match v with
  | PyNone => false
  | PyStr s => negb (String.eqb s "")
  | PyBool b => b
  | PyInt n => negb (n =? 0)
  end.

(** [str(n)] for an integer *)
Definition str_of_Z (n : Z) : string := NilZero.string_of_int (Z.to_int n).

(** [str(v)] *)
Definition str (v : value) : string :=
  match v with
  | PyNone => "None"
  | PyStr s => s
  | PyBool true => "True"
  | PyBool false => "False"
  | PyInt n => str_of_Z n
  end.

Definition is_upper (c : ascii) : bool :=
  let n := nat_of_ascii c in (65 <=? n)%nat && (n <=? 90)%nat.

Definition lower_char (c : ascii) : ascii :=
  if is_upper c then ascii_of_nat (nat_of_ascii c + 32) else c.

(** [s.lower()] *)
Fixpoint lower (s : string) : string :=
  match s with
  | EmptyString => EmptyString
  | String c r => String (lower_char c) (lower r)
  end.

(** [s.endswith(suffix)] *)
Definition endswith (s suffix : string) : bool :=
  let n := String.length s in
  let k := String.length suffix in
  (k <=? n)%nat && String.eqb (substring (n - k) k s) suffix.

(** [sub in s] *)
Definition contains (sub s : string) : bool :=
  match String.index 0 sub s with
  | Some _ => true
  | None => false
  end.

Definition is_digit (c : ascii) : bool :=
  let n := nat_of_ascii c in (48 <=? n)%nat && (n <=? 57)%nat.

(** [c.isspace()] on ASCII: tab .. carriage return, the four separators
    0x1c .. 0x1f, and the blank. *)
Definition is_space (c : ascii) : bool :=
  let n := nat_of_ascii c in
  ((9 <=? n)%nat && (n <=? 13)%nat) || ((28 <=? n)%nat && (n <=? 32)%nat).

Definition flush (cur : list ascii) : list string :=
  match cur with
  | [] => []
  | _ => [string_of_list_ascii (rev cur)]
  end.

Fixpoint split_from (cs cur : list ascii) : list string :=
  match cs with
  | [] => flush cur
  | c :: r =>
      if is_space c then (flush cur ++ split_from r [])%list
      else split_from r (c :: cur)
  end.

(** [s.split()] *)
Definition split (s : string) : list string :=
  split_from (list_ascii_of_string s) [].

Fixpoint lstrip (cs : list ascii) : list ascii :=
  match cs with
  | c :: r => if is_space c then lstrip r else cs
  | [] => []
  end.

(** [s.strip()], on the characters of [s] *)
Definition strip (cs : list ascii) : list ascii :=
  rev (lstrip (rev (lstrip cs))).

(** Decimal digits, where single underscores may separate digits. *)
Fixpoint digits_ok (cs : list ascii) (after_digit : bool) : bool :=
  match cs with
  | [] => after_digit
  | c :: r =>
      if is_digit c then digits_ok r true
      else if Ascii.eqb c "_" then after_digit && digits_ok r false
      else false
  end.

Definition signed (cs : list ascii) : bool * list ascii :=
  match cs with
  | c :: r =>
      if Ascii.eqb c "-" then (true, r)
      else if Ascii.eqb c "+" then (false, r)
      else (false, cs)
  | [] => (false, [])
  end.

(** [int(s)] for a string, [None] for its [ValueError].  Integers are
    unbounded and no limit on the number of digits is modelled. *)
Definition int_of_str (s : string) : option Z :=
  let (neg, body) := signed (strip (list_ascii_of_string s)) in
  if digits_ok body false then
    match NilEmpty.uint_of_string (string_of_list_ascii (List.filter is_digit body)) with
    | Some d => Some (if neg then - Z.of_uint d else Z.of_uint d)
    | None => None
    end
  else None.

(** [int(v)], [None] for its [ValueError] or [TypeError] *)
Definition int (v : value) : option Z :=
  match v with
  | PyNone => None
  | PyStr s => int_of_str s
  | PyBool b => Some (if b then 1 else 0)
  | PyInt n => Some n
  end.

(** [x in xs] for a list of strings *)
Definition mem (x : string) (xs : list string) : bool :=
  existsb (String.eqb x) xs.

(** *** Insertion-ordered dictionaries with string keys *)

Definition dict (V : Type) := list (string * V).

Fixpoint dict_get {V} (k : string) (d : dict V) : option V :=
  match d with
  | [] => None
  | (k', v) :: r => if String.eqb k k' then Some v else dict_get k r
  end.

(** [d[k] = v]: an existing key keeps its position. *)
Fixpoint dict_set {V} (k : string) (v : V) (d : dict V) : dict V :=
  match d with
  | [] => [(k, v)]
  | (k', v') :: r =>
      if String.eqb k k' then (k', v) :: r else (k', v') :: dict_set k v r
  end.

Definition dict_keys {V} (d : dict V) : list string := map fst d.

(** [d[k]] *)
Definition getitem {V} (k : string) (d : dict V) : result V :=
  match dict_get k d with
  | Some v => Ok v
  | None => Exn KeyError
  end.

(** [d.get(k, default)] *)
Definition get_default {V} (k : string) (default : V) (d : dict V) : V :=
  match dict_get k d with
  | Some v => v
  | None => default
  end.

End Py.

Import Py.

(** ** The part of Qt's [QProcess] the manager drives *)

Module Qt.

Inductive ProcessState := NotRunning | Starting | Running.

Inductive ChannelMode := SeparateChannels | MergedChannels.

(** The two overloads of [QProcess.start] that the manager calls. *)
Inductive start_call :=
| StartProgram (program : string) (arguments : list string)
| StartCommand (command : string).

(** What the operating system is handed when [start] runs: the call and
    the attributes of the object as they are at that moment.  An empty
    environment means that the child inherits the parent's. *)
Record launch := mkLaunch {
  l_call : start_call;
  l_workdir : string;
  l_env : dict string;
  l_mode : ChannelMode
}.

Record QProcess := mkQProcess {
  workingDirectory : string;
  processEnvironment : dict string;
  processChannelMode : ChannelMode;
  launched : option launch;
  state : ProcessState;
  (* the answer of the operating system to the launch, for as long as the
     event loop has not delivered it as [started] or [errorOccurred] *)
  pending_start : option bool;
  terminate_requested : bool;
  kill_requested : bool
}.

(** [QProcess()] *)
Definition new : QProcess :=
  mkQProcess "" [] SeparateChannels None NotRunning None false false.

Definition setWorkingDirectory (dir : string) (p : QProcess) : QProcess :=
  mkQProcess dir (processEnvironment p) (processChannelMode p)
    (launched p) (state p) (pending_start p) (terminate_requested p)
    (kill_requested p).

Definition setProcessEnvironment (env : dict string) (p : QProcess) : QProcess :=
  mkQProcess (workingDirectory p) env (processChannelMode p)
    (launched p) (state p) (pending_start p) (terminate_requested p)
    (kill_requested p).

Definition setProcessChannelMode (mode : ChannelMode) (p : QProcess) : QProcess :=
  mkQProcess (workingDirectory p) (processEnvironment p) mode
    (launched p) (state p) (pending_start p) (terminate_requested p)
    (kill_requested p).

(** [p.start(...)]: a process that is not idle ignores the call; otherwise
    the launch is made with the current attributes and the object enters
    [Starting] at once.  Whether the operating system ([spawn]) accepted
    the launch is not known to the caller when [start] returns: the object
    leaves [Starting], for [Running] or back to [NotRunning], only when the
    event loop delivers the answer. *)
Definition start (spawn : launch -> bool) (call : start_call) (p : QProcess) : QProcess :=
  match state p with
  | NotRunning =>
      let l := mkLaunch call (workingDirectory p) (processEnvironment p)
                 (processChannelMode p) in
      mkQProcess (workingDirectory p) (processEnvironment p)
        (processChannelMode p) (Some l) Starting (Some (spawn l)) false false
  | _ => p
  end.

(** [p.terminate()]: asks the process to exit; its state changes only when
    the operating system reports the exit. *)
Definition terminate (p : QProcess) : QProcess :=
  match state p with
  | NotRunning => p
  | _ => mkQProcess (workingDirectory p) (processEnvironment p)
           (processChannelMode p) (launched p) (state p) (pending_start p) true
           (kill_requested p)
  end.

(** [p.kill()] *)
Definition kill (p : QProcess) : QProcess :=
  match state p with
  | NotRunning => p
  | _ => mkQProcess (workingDirectory p) (processEnvironment p)
           (processChannelMode p) (launched p) (state p) (pending_start p)
           (terminate_requested p) true
  end.

Definition is_not_running (p : QProcess) : bool :=
  match state p with NotRunning => true | _ => false end.

End Qt.

(** ** The manager's state *)

Definition handle := nat.

(** An entry of [self.apps]. *)
Record app_info := mkAppInfo {
  ai_name : string;
  ai_path : string;
  ai_settings_path : string;
  ai_settings : dict value
}.

(** Units of the [schedule] library. *)
Inductive time_unit := Seconds | Minutes | Hours | Days | Weeks.

(** The two functions the manager hands to [Job.do]. *)
Inductive job_func :=
| ScheduledAppRun (app_name : string)
| CheckMonthlySchedule (app_name : string).

(** A job of the [schedule] library: [every(interval).<unit>.at(time).do(f)]. *)
Record Job := mkJob {
  j_interval : Z;
  j_unit : time_unit;
  j_at : option string;
  j_func : job_func
}.

(** The closures handed to [QTimer.singleShot]. *)
Inductive callback :=
| CheckProcessTerminated (app_name : string) (process : handle)
| EnsureProcessKilled (app_name : string) (process : handle)
| ScheduledRunMainThread (app_name : string)
| StartAndShowApp (app_name : string)
| NotifyAppStarted (app_name : string) (set_focus : bool).

(** Calls of the two hooks that the main window overrides. *)
Inductive sink_event :=
| ScheduledRunObserved (app_name : string) (timestamp : option string)
| AppStarted (app_name : string) (set_focus : bool).

(** The lines the manager prints. *)
Inductive message :=
| MsgWorkingDirectory (app_name path : string)
| MsgStarting (app_name command : string)
| MsgNoCommand (app_name : string)
| MsgAlreadyRunning (app_name : string)
| MsgNotFound (app_name : string)
| MsgStopping (app_name : string)
| MsgRemoved (app_name : string)
| MsgNotRunning (app_name : string)
| MsgStillRunning (app_name : string)
| MsgTerminated (app_name : string)
| MsgNotKilled (app_name : string)
| MsgKilled (app_name : string)
| MsgScheduled (app_name : string) (job : Job)
| MsgTriggered (app_name : string)
| MsgExecuting (app_name : string)
| MsgStopFirst (app_name : string)
| MsgStartNow (app_name : string)
| MsgStartingScheduled (app_name : string)
| MsgStarted (app_name : string)
| MsgFailedToStart (app_name : string)
| MsgSaveError.

(** One child of a [<parameters>] element: its [name] and [value] attributes. *)
Record xml_param := mkParam {
  p_name : option string;
  p_value : option string
}.

(** One child of the root element, as [ElementTree] presents it. *)
Record xml_elem := mkElem {
  e_tag : string;
  e_text : option string;
  e_children : list xml_param
}.

(** A file on disk: either it does not parse as XML, or it is a document
    given by the children of its root. *)
Inductive file :=
| Malformed
| Document (root : list xml_elem).

Record AppManager := mkAppManager {
  apps : dict app_info;
  processes : gmap string handle;
  schedules : gmap string Job;
  last_schedule_time : option string;
  (* the world around the manager *)
  heap : list Qt.QProcess;          (* the QProcess objects, by handle *)
  timers : list (nat * callback);   (* QTimer.singleShot, in posting order *)
  jobs : list Job;                  (* the schedule library's job list *)
  sink : list sink_event;           (* hook calls, in order *)
  stdout : list message;
  files : gmap string file
}.

Definition with_apps (f : dict app_info -> dict app_info) (m : AppManager) :=
  mkAppManager (f (apps m)) (processes m) (schedules m) (last_schedule_time m)
    (heap m) (timers m) (jobs m) (sink m) (stdout m) (files m).

Definition with_processes (f : gmap string handle -> gmap string handle) (m : AppManager) :=
  mkAppManager (apps m) (f (processes m)) (schedules m) (last_schedule_time m)
    (heap m) (timers m) (jobs m) (sink m) (stdout m) (files m).

Definition with_schedules (f : gmap string Job -> gmap string Job) (m : AppManager) :=
  mkAppManager (apps m) (processes m) (f (schedules m)) (last_schedule_time m)
    (heap m) (timers m) (jobs m) (sink m) (stdout m) (files m).

Definition with_last_schedule_time (t : option string) (m : AppManager) :=
  mkAppManager (apps m) (processes m) (schedules m) t
    (heap m) (timers m) (jobs m) (sink m) (stdout m) (files m).

Definition with_heap (f : list Qt.QProcess -> list Qt.QProcess) (m : AppManager) :=
  mkAppManager (apps m) (processes m) (schedules m) (last_schedule_time m)
    (f (heap m)) (timers m) (jobs m) (sink m) (stdout m) (files m).

Definition with_timers (f : list (nat * callback) -> list (nat * callback)) (m : AppManager) :=
  mkAppManager (apps m) (processes m) (schedules m) (last_schedule_time m)
    (heap m) (f (timers m)) (jobs m) (sink m) (stdout m) (files m).

Definition with_jobs (f : list Job -> list Job) (m : AppManager) :=
  mkAppManager (apps m) (processes m) (schedules m) (last_schedule_time m)
    (heap m) (timers m) (f (jobs m)) (sink m) (stdout m) (files m).

Definition with_sink (f : list sink_event -> list sink_event) (m : AppManager) :=
  mkAppManager (apps m) (processes m) (schedules m) (last_schedule_time m)
    (heap m) (timers m) (jobs m) (f (sink m)) (stdout m) (files m).

Definition with_stdout (f : list message -> list message) (m : AppManager) :=
  mkAppManager (apps m) (processes m) (schedules m) (last_schedule_time m)
    (heap m) (timers m) (jobs m) (sink m) (f (stdout m)) (files m).

Definition with_files (f : gmap string file -> gmap string file) (m : AppManager) :=
  mkAppManager (apps m) (processes m) (schedules m) (last_schedule_time m)
    (heap m) (timers m) (jobs m) (sink m) (stdout m) (f (files m)).

(** ** A state monad with Python exceptions *)

Definition M (A : Type) : Type := AppManager -> result A * AppManager.

Definition ret {A} (a : A) : M A := fun m => (Ok a, m).

Definition bind {A B} (c : M A) (k : A -> M B) : M B :=
  fun m =>
    match c m with
    | (Ok a, m') => k a m'
    | (Exn e, m') => (Exn e, m')
    end.

Definition lift {A} (r : result A) : M A := fun m => (r, m).

Definition raise {A} (e : exn) : M A := fun m => (Exn e, m).

Definition modify (f : AppManager -> AppManager) : M unit :=
  fun m => (Ok tt, f m).

Notation "'let*' x ':=' c 'in' k" := (bind c (fun x => k))
  (at level 10, x name, c at level 100, k at level 200).
Notation "c ';;' k" := (bind c (fun _ => k))
  (at level 100, k at level 200, right associativity).

(** [print(...)] *)
Definition print (msg : message) : M unit :=
  modify (with_stdout (fun out => (out ++ [msg])%list)).

(** [QTimer.singleShot(ms, cb)] *)
Definition singleShot (ms : nat) (cb : callback) : M unit :=
  modify (with_timers (fun q => (q ++ [(ms, cb)])%list)).

(** A value that must be a [str] for the call to go through. *)
Definition as_str (e : exn) (v : value) : result string :=
  match v with
  | PyStr s => Ok s
  | _ => Exn e
  end.

(** ** Process registry *)

(** The call of [QProcess.start] that [start_app] makes for a command.
    [None] stands for the [IndexError] of [parts[0]] on an empty split. *)
Definition launch_call (command : string) : option Qt.start_call :=
  let is_batch_file :=
    endswith (lower command) ".bat" || endswith (lower command) ".cmd" in
  let is_python_script :=
    contains "python" (lower command) || endswith (lower command) ".py" in
  if is_batch_file then
    Some (Qt.StartProgram "cmd.exe" ["/c"; command])
  else if is_python_script then
    match split command with
    | [] => None
    | program :: args =>
        if endswith (lower program) "python.exe" || String.eqb (lower program) "python" then
          let args :=
            if negb (mem "-u" args) && negb (contains "-u" command)
            then "-u" :: args else args in
          Some (Qt.StartProgram program args)
        else if endswith (lower program) ".py" then
          Some (Qt.StartProgram "python" ("-u" :: program :: args))
        else
          Some (Qt.StartProgram program ("-u" :: args))
    end
  else
    match split command with
    | program :: arg :: rest => Some (Qt.StartProgram program (arg :: rest))
    | _ => Some (Qt.StartCommand command)
    end.

Section Registry.

(** Whether the operating system accepts a launch. *)
Variable spawn : Qt.launch -> bool.

Definition start_app (app_name : string) : M bool :=
  fun m =>
    match dict_get app_name (apps m), processes m !! app_name with
    | Some app_info, None =>
        let settings := ai_settings app_info in
        let process := Qt.new in
        (let* path := lift (getitem "path" settings) in
         let* process :=
           if truthy path then
             let* dir := lift (as_str TypeError path) in
             print (MsgWorkingDirectory app_name dir);;
             ret (Qt.setWorkingDirectory dir process)
           else ret process in
         let* command := lift (getitem "command" settings) in
         if truthy command then
           print (MsgStarting app_name (str command));;
           let* command := lift (as_str AttributeError command) in
           let* call :=
             lift (match launch_call command with
                   | Some c => Ok c
                   | None => Exn IndexError
                   end) in
           let process := Qt.start spawn call process in
           (* self.processes[app_name] = process *)
           let* h := (fun m => (Ok (length (heap m)),
                                with_heap (fun hp => (hp ++ [process])%list) m)) in
           modify (with_processes (insert app_name h));;
           modify (with_heap (alter (Qt.setProcessChannelMode Qt.MergedChannels) h));;
           let* environment :=
             (fun m => (Ok (default [] (Qt.processEnvironment <$> heap m !! h)), m)) in
           let environment := dict_set "PYTHONUNBUFFERED" "1"%string environment in
           modify (with_heap (alter (Qt.setProcessEnvironment environment) h));;
           ret true
         else
           print (MsgNoCommand app_name);;
           ret false) m
    | _, Some _ =>
        (print (MsgAlreadyRunning app_name);; ret false) m
    | None, None =>
        (print (MsgNotFound app_name);; ret false) m
    end.

End Registry.

Definition stop_app (app_name : string) : M bool :=
  fun m =>
    match processes m !! app_name with
    | Some process =>
        (print (MsgStopping app_name);;
         modify (with_heap (alter Qt.terminate process));;
         singleShot 500 (CheckProcessTerminated app_name process);;
         modify (with_processes (delete app_name));;
         print (MsgRemoved app_name);;
         ret true) m
    | None =>
        (print (MsgNotRunning app_name);; ret false) m
    end.

Definition is_app_running (app_name : string) (m : AppManager) : bool :=
  bool_decide (is_Some (processes m !! app_name)).

Definition process_is_idle (process : handle) (m : AppManager) : bool :=
  default true (Qt.is_not_running <$> heap m !! process).

Definition check_process_terminated (app_name : string) (process : handle) : M unit :=
  fun m =>
    if negb (process_is_idle process m) then
      (print (MsgStillRunning app_name);;
       modify (with_heap (alter Qt.kill process));;
       singleShot 500 (EnsureProcessKilled app_name process)) m
    else
      print (MsgTerminated app_name) m.

Definition _ensure_process_killed (app_name : string) (process : handle) : M unit :=
  fun m =>
    if negb (process_is_idle process m) then print (MsgNotKilled app_name) m
    else print (MsgKilled app_name) m.

(** ** Schedule engine *)

(** A reading of [datetime.now()]: the day of the month and ['%H:%M:%S']. *)
Record datetime := mkDatetime {
  dt_day : Z;
  dt_clock : string
}.

(** [v == s] for a string literal [s] *)
Definition value_is (v : value) (s : string) : bool :=
  match v with
  | PyStr t => String.eqb t s
  | _ => false
  end.

(** A value used as a number ([v < 1], [timedelta(seconds=v)]). *)
Definition as_number (v : value) : result Z :=
  match v with
  | PyInt n => Ok n
  | PyBool b => Ok (if b then 1 else 0)
  | _ => Exn TypeError
  end.

Fixpoint for_each {A} (body : A -> M unit) (l : list A) : M unit :=
  match l with
  | [] => ret tt
  | x :: r => body x;; for_each body r
  end.

Section Engine.

Variable spawn : Qt.launch -> bool.

(** [QApplication.processEvents()]: whatever the pending events do. *)
Variable process_events : AppManager -> AppManager.

(** Whether the [schedule] library builds the job ([at] accepts the time
    and [do] can compute the first run) instead of raising. *)
Variable job_accepted : Job -> bool.

(** [self.schedules[app_name] = schedule.every(n).<unit>[.at(t)].do(f)]
    and the line printed after it. *)
Definition add_job (app_name : string) (job : Job) : M unit :=
  if job_accepted job then
    modify (with_jobs (fun js => (js ++ [job])%list));;
    modify (with_schedules (insert app_name job));;
    print (MsgScheduled app_name job)
  else raise ScheduleValueError.

(** The body of the loop of [setup_schedules]. *)
Definition schedule_app (entry : string * app_info) : M unit :=
  let app_name := fst entry in
  let settings := ai_settings (snd entry) in
  if truthy (get_default "schedule_enabled" (PyBool false) settings) then
    let schedule_type := get_default "schedule_type" (PyStr "Interval") settings in
    if value_is schedule_type "Interval" then
      let interval_value := get_default "interval_value" (PyInt 60) settings in
      let interval_unit := get_default "interval_unit" (PyStr "Minutes") settings in
      if value_is interval_unit "Seconds" then
        let* n := lift (as_number interval_value) in
        let n := if n <? 1 then 1 else n in
        add_job app_name (mkJob n Seconds None (ScheduledAppRun app_name))
      else if value_is interval_unit "Minutes" then
        let* n := lift (as_number interval_value) in
        add_job app_name (mkJob n Minutes None (ScheduledAppRun app_name))
      else if value_is interval_unit "Hours" then
        let* n := lift (as_number interval_value) in
        add_job app_name (mkJob n Hours None (ScheduledAppRun app_name))
      else ret tt
    else if value_is schedule_type "Daily" then
      let* time_str :=
        lift (as_str TypeError (get_default "schedule_time" (PyStr "12:00") settings)) in
      add_job app_name (mkJob 1 Days (Some time_str) (ScheduledAppRun app_name))
    else if value_is schedule_type "Weekly" then
      let* time_str :=
        lift (as_str TypeError (get_default "schedule_time" (PyStr "12:00") settings)) in
      add_job app_name (mkJob 1 Weeks (Some time_str) (ScheduledAppRun app_name))
    else if value_is schedule_type "Monthly" then
      let* time_str :=
        lift (as_str TypeError (get_default "schedule_time" (PyStr "12:00") settings)) in
      add_job app_name (mkJob 1 Days (Some time_str) (CheckMonthlySchedule app_name))
    else ret tt
  else ret tt.

Definition setup_schedules : M unit :=
  modify (with_jobs (fun _ => []));;
  modify (with_schedules (fun _ => ∅));;
  fun m => for_each schedule_app (apps m) m.

Definition scheduled_app_run (app_name : string) (now : datetime) : M bool :=
  let timestamp := dt_clock now in
  print (MsgTriggered app_name);;
  modify (with_last_schedule_time (Some timestamp));;
  singleShot 0 (ScheduledRunMainThread app_name);;
  modify process_events;;
  ret true.

(** [today] is the reading of the clock made by the gate, [now] the one
    made by [scheduled_app_run]. *)
Definition check_monthly_schedule (app_name : string) (today now : datetime) : M unit :=
  if dt_day today =? 1 then
    scheduled_app_run app_name now;; ret tt
  else ret tt.

(** What a due job does when the library runs it. *)
Definition run_job (job : Job) (today now : datetime) : M unit :=
  match j_func job with
  | ScheduledAppRun app_name => scheduled_app_run app_name now;; ret tt
  | CheckMonthlySchedule app_name => check_monthly_schedule app_name today now
  end.


(** The hook that the main window replaces. *)
Definition _update_terminal_for_scheduled_run (app_name : string)
    (timestamp : option string) : M unit :=
  modify (with_sink (fun evs => (evs ++ [ScheduledRunObserved app_name timestamp])%list)).

Definition _start_and_show_app (app_name : string) : M unit :=
  print (MsgStartingScheduled app_name);;
  let* started := start_app spawn app_name in
  if started then
    print (MsgStarted app_name);;
    singleShot 0 (NotifyAppStarted app_name false)
  else
    print (MsgFailedToStart app_name).

Definition _scheduled_app_run_main_thread (app_name : string) : M unit :=
  let* timestamp := (fun m => (Ok (last_schedule_time m), m)) in
  print (MsgExecuting app_name);;
  _update_terminal_for_scheduled_run app_name timestamp;;
  modify process_events;;
  fun m =>
    if is_app_running app_name m then
      (print (MsgStopFirst app_name);;
       stop_app app_name;;
       singleShot 1000 (StartAndShowApp app_name)) m
    else
      (print (MsgStartNow app_name);;
       _start_and_show_app app_name) m.


End Engine.

(** ** Settings files *)

Definition default_settings : dict value :=
  [ ("path", PyStr "");
    ("command", PyStr "");
    ("url", PyStr "");
    ("autorun", PyBool false);
    ("schedule_enabled", PyBool false);
    ("schedule_type", PyStr "Interval");
    ("interval_value", PyInt 60);
    ("interval_unit", PyStr "Minutes");
    ("schedule_time", PyStr "12:00");
    ("display_name", PyStr "");
    ("short_name", PyStr "");
    ("group", PyStr "") ].

Definition bool_keys : list string := ["autorun"; "schedule_enabled"].

Definition string_keys : list string :=
  ["path"; "command"; "url"; "group"; "short_name"; "interval_unit";
   "schedule_type"; "schedule_time"; "display_name"].

(** An attribute or an element text that may be absent. *)
Definition of_text (t : option string) : value :=
  match t with
  | Some s => PyStr s
  | None => PyNone
  end.

(** [for param in elem]: the loop stops at a child without a [name]
    attribute, where [param_name.lower()] raises. *)
Fixpoint load_params (params : list xml_param) (settings : dict value)
    : result unit * dict value :=
  match params with
  | [] => (Ok tt, settings)
  | param :: rest =>
      match p_name param with
      | None => (Exn AttributeError, settings)
      | Some param_name =>
          if String.eqb (lower param_name) "url"
             && match dict_get "url" settings with
                | Some url => truthy url
                | None => false
                end
          then load_params rest settings
          else load_params rest (dict_set param_name (of_text (p_value param)) settings)
      end
  end.

(** [for elem in root] *)
Fixpoint load_elems (root : list xml_elem) (settings : dict value)
    : result unit * dict value :=
  match root with
  | [] => (Ok tt, settings)
  | elem :: rest =>
      if String.eqb (e_tag elem) "parameters" then
        match load_params (e_children elem) settings with
        | (Ok _, settings) => load_elems rest settings
        | (Exn e, settings) => (Exn e, settings)
        end
      else load_elems rest (dict_set (e_tag elem) (of_text (e_text elem)) settings)
  end.

Definition convert_bool (settings : dict value) (key : string) : dict value :=
  match dict_get key settings with
  | Some PyNone | None => dict_set key (PyBool false) settings
  | Some v => dict_set key (PyBool (String.eqb (lower (str v)) "true")) settings
  end.

Definition convert_interval (settings : dict value) : dict value :=
  match dict_get "interval_value" settings with
  | Some PyNone | None => dict_set "interval_value" (PyInt 60) settings
  | Some v =>
      match Py.int v with
      | Some n => dict_set "interval_value" (PyInt n) settings
      | None => dict_set "interval_value" (PyInt 60) settings
      end
  end.

Definition convert_string (settings : dict value) (key : string) : dict value :=
  match dict_get key settings with
  | Some PyNone | None => dict_set key (PyStr "") settings
  | Some v => dict_set key (PyStr (str v)) settings
  end.

Definition convert (settings : dict value) : dict value :=
  fold_left convert_string string_keys
    (convert_interval (fold_left convert_bool bool_keys settings)).

(** [load_settings(settings_path)], as a function of the file system; its
    debugging output is not part of the model.  An exception inside the
    [try] leaves the dictionary as it was when it was raised. *)
Definition load_settings (settings_path : string) (m : AppManager) : dict value :=
  match files m !! settings_path with
  | Some (Document root) =>
      match load_elems root default_settings with
      | (Ok _, settings) => convert settings
      | (Exn _, settings) => settings
      end
  | Some Malformed | None => default_settings
  end.

Definition is_letter (c : ascii) : bool :=
  let n := nat_of_ascii c in
  ((65 <=? n)%nat && (n <=? 90)%nat) || ((97 <=? n)%nat && (n <=? 122)%nat).

Definition name_start (c : ascii) : bool := is_letter c || Ascii.eqb c "_".

Definition name_char (c : ascii) : bool :=
  name_start c || is_digit c || Ascii.eqb c "-" || Ascii.eqb c ".".

(** Tags that are XML names over ASCII letters, digits, [_], [-] and [.]. *)
Definition plain_name (s : string) : bool :=
  match list_ascii_of_string s with
  | [] => false
  | c :: r => name_start c && forallb name_char r
  end.

Definition plain_char (c : ascii) : bool :=
  let n := nat_of_ascii c in
  ((32 <=? n)%nat && (n <=? 126)%nat) || (n =? 9)%nat || (n =? 10)%nat.

(** Texts of printable ASCII characters, tabs and line feeds. *)
Definition plain_text (s : string) : bool :=
  forallb plain_char (list_ascii_of_string s).

(** What [ElementTree] reads back from [<key>str(value)</key>]: an empty
    text comes back as no text. *)
Definition element_of (item : string * value) : xml_elem :=
  mkElem (fst item)
    (if String.eqb (str (snd item)) "" then None else Some (str (snd item))) [].

(** The settings for which the path [ET.tostring], [minidom.parseString],
    [toprettyxml] and a later [ET.parse] is modelled: every key is a plain
    name and every text is plain.  On these the document read back is
    [map element_of settings]; outside them (tags that are not names,
    control characters, bytes that depend on the encoding of the platform)
    the model takes [save_settings] to fail in its [try]. *)
Definition serialisable (settings : dict value) : bool :=
  forallb (fun item => plain_name (fst item) && plain_text (str (snd item))) settings.

Definition set_settings (settings : dict value) (info : app_info) : app_info :=
  mkAppInfo (ai_name info) (ai_path info) (ai_settings_path info) settings.

(** [save_settings(app_name, settings)]; writing the file itself is taken
    to succeed. *)
Definition save_settings (app_name : string) (settings : dict value) : M bool :=
  fun m =>
    match dict_get app_name (apps m) with
    | None => ret false m
    | Some app_info =>
        if serialisable settings then
          (modify (with_files (insert (ai_settings_path app_info)
                                 (Document (map element_of settings))));;
           modify (with_apps (dict_set app_name (set_settings settings app_info)));;
           ret true) m
        else
          (print MsgSaveError;; ret false) m
    end.

(** The failure reason of a call is the line it printed last. *)
Definition reported (m : AppManager) : option message := last (stdout m).

(** A value that is a string or [None]. *)
Definition text_value (v : value) : bool :=
  match v with
  | PyNone | PyStr _ => true
  | _ => false
  end.

(** The two fields [start_app] reads are present and are strings or [None];
    this is what the loader returns in every case ([load_settings_launchable]). *)
Definition launchable (settings : dict value) : bool :=
  match dict_get "path" settings, dict_get "command" settings with
  | Some path, Some command => text_value path && text_value command
  | _, _ => false
  end.

(** The keys of a dictionary are distinct. *)
Definition wf_dict {V} (d : dict V) : Prop := NoDup (dict_keys d).

(** ** Auxiliary definitions for the statements *)

(** The directory a [path] value selects. *)
Definition dir_of (path : value) : string :=
  match path with
  | PyStr s => s
  | _ => ""
  end.

(** The log after the working directory has been chosen. *)
Definition after_path (app_name : string) (path : value) (out : list message)
    : list message :=
  if truthy path then (out ++ [MsgWorkingDirectory app_name (dir_of path)])%list
  else out.

(** The object that [start_app] leaves in the registry. *)
Definition started_process (spawn : Qt.launch -> bool) (path : value)
    (call : Qt.start_call) : Qt.QProcess :=
  Qt.setProcessEnvironment [("PYTHONUNBUFFERED", "1")]
    (Qt.setProcessChannelMode Qt.MergedChannels
       (Qt.start spawn call (Qt.setWorkingDirectory (dir_of path) Qt.new))).

(** The name of a unit in the settings. *)
Definition unit_name (u : time_unit) : string :=
  match u with
  | Seconds => "Seconds"
  | Minutes => "Minutes"
  | Hours => "Hours"
  | Days => "Days"
  | Weeks => "Weeks"
  end.

(** The job that the loop body asks the library for, if any. *)
Definition planned_job (entry : string * app_info) : result (option Job) :=
  let app_name := fst entry in
  let settings := ai_settings (snd entry) in
  let time_str := get_default "schedule_time" (PyStr "12:00") settings in
  let interval_value := get_default "interval_value" (PyInt 60) settings in
  let interval_unit := get_default "interval_unit" (PyStr "Minutes") settings in
  let schedule_type := get_default "schedule_type" (PyStr "Interval") settings in
  let every n u f :=
    match n with
    | Ok n => Ok (Some (mkJob n u None f))
    | Exn e => Exn e
    end in
  let at_time u f :=
    match as_str TypeError time_str with
    | Ok t => Ok (Some (mkJob 1 u (Some t) f))
    | Exn e => Exn e
    end in
  if truthy (get_default "schedule_enabled" (PyBool false) settings) then
    if value_is schedule_type "Interval" then
      if value_is interval_unit "Seconds" then
        every (match as_number interval_value with
               | Ok n => Ok (if n <? 1 then 1 else n)
               | Exn e => Exn e
               end) Seconds (ScheduledAppRun app_name)
      else if value_is interval_unit "Minutes" then
        every (as_number interval_value) Minutes (ScheduledAppRun app_name)
      else if value_is interval_unit "Hours" then
        every (as_number interval_value) Hours (ScheduledAppRun app_name)
      else Ok None
    else if value_is schedule_type "Daily" then
      at_time Days (ScheduledAppRun app_name)
    else if value_is schedule_type "Weekly" then
      at_time Weeks (ScheduledAppRun app_name)
    else if value_is schedule_type "Monthly" then
      at_time Days (CheckMonthlySchedule app_name)
    else Ok None
  else Ok None.

Definition standard_keys : list string := dict_keys default_settings.

(** Every child of a [<parameters>] element has a [name] attribute, so the
    loop of the loader runs to its end. *)
Definition all_named (root : list xml_elem) : bool :=
  forallb (fun elem =>
             negb (String.eqb (e_tag elem) "parameters")
             || forallb (fun param => match p_name param with
                                      | Some _ => true
                                      | None => false
                                      end) (e_children elem)) root.

Definition parses_cleanly (settings_path : string) (m : AppManager) : bool :=
  match files m !! settings_path with
  | Some (Document root) => all_named root
  | _ => true
  end.

(** An entry that is one of the twelve standard fields, or whose value is a
    non-empty string under a key other than [parameters]. *)
Definition kept_entry (item : string * value) : bool :=
  mem (fst item) standard_keys
  || (negb (String.eqb (fst item) "parameters")
      && match snd item with
         | PyStr t => negb (String.eqb t "")
         | _ => false
         end).

Definition round_trip_safe (settings : dict value) : bool :=
  forallb kept_entry settings.

(** The value read back from the element written for [v]. *)
Definition reread (v : value) : value := of_text (e_text (element_of ("", v))).

Definition to_bool (ov : option value) : value :=
  match ov with
  | Some PyNone | None => PyBool false
  | Some v => PyBool (String.eqb (lower (str v)) "true")
  end.

Definition to_interval (ov : option value) : value :=
  match ov with
  | Some PyNone | None => PyInt 60
  | Some v => match Py.int v with
              | Some n => PyInt n
              | None => PyInt 60
              end
  end.

Definition to_string (ov : option value) : value :=
  match ov with
  | Some PyNone | None => PyStr ""
  | Some v => PyStr (str v)
  end.

(** The effect of [convert] on the entry under a key. *)
Definition converted (k : string) (ov : option value) : option value :=
  if mem k string_keys then Some (to_string ov)
  else if String.eqb k "interval_value" then Some (to_interval ov)
  else if mem k bool_keys then Some (to_bool ov)
  else ov.

(** ** Concrete states *)

(** The definition of the scenario of the specification: one application
    named Ping, with default settings but for what is given. *)
Definition ping_settings (command : string) : dict value :=
  dict_set "command" (PyStr command) default_settings.

Definition ping_info (settings : dict value) : app_info :=
  mkAppInfo "Ping" "apps/Ping" "apps/Ping/settings.xml" settings.

Definition ping_manager (settings : dict value) : AppManager :=
  mkAppManager [("Ping", ping_info settings)] ∅ ∅ None [] [] [] [] [] ∅.

Definition os_accepts (l : Qt.launch) : bool := true.
Definition library_accepts (job : Job) : bool := true.
Definition no_pending_events (m : AppManager) : AppManager := m.

(** Ping after a successful start. *)
Definition ping_running : AppManager :=
  (start_app os_accepts "Ping" (ping_manager (ping_settings "ping localhost"))).2.

(** Ping with an enabled schedule. *)
Definition scheduled_settings (schedule_type : string) (interval_value : Z)
    (interval_unit : string) : dict value :=
  dict_set "schedule_type" (PyStr schedule_type)
    (dict_set "interval_unit" (PyStr interval_unit)
       (dict_set "interval_value" (PyInt interval_value)
          (dict_set "schedule_enabled" (PyBool true)
             (ping_settings "ping localhost")))).

(** Ping with a settings file on disk. *)
Definition ping_on_disk (root : list xml_elem) : AppManager :=
  with_files (insert "apps/Ping/settings.xml" (Document root))
    (ping_manager default_settings).

(** Ping is running and its command is then edited to the empty string. *)
Definition ping_edited : AppManager :=
  (save_settings "Ping" (ping_settings "") ping_running).2.

Definition monthly_settings : dict value :=
  dict_set "schedule_time" (PyStr "09:00") (scheduled_settings "Monthly" 60 "Minutes").

(** ** Loading the application folder *)

(** [del d[k]] *)
Definition dict_del {V} (k : string) (d : dict V) : dict V :=
  List.filter (fun item => negb (String.eqb (fst item) k)) d.

(** [APP_FOLDER] of utils/constants.py *)
Definition APP_FOLDER : string := "apps".

(** [os.path.join(a, b)] for a relative [b], with [/] as the separator. *)
Definition path_join (a b : string) : string := a ++ "/" ++ b.

(** [key.lower() == "url" and key != "url"] *)
Definition duplicate_url_key (key : string) : bool :=
  String.eqb (lower key) "url" && negb (String.eqb key "url").

(** The loop of [clean_duplicate_url_parameters] over the keys listed when
    it starts; the result tells whether a cleanup is needed.  [main_url] is
    read once, before the loop. *)
Fixpoint clean_keys (keys : list string) (main_url : value)
    (settings : dict value) (needs_cleanup : bool) : result bool * dict value :=
  match keys with
  | [] => (Ok needs_cleanup, settings)
  | key :: rest =>
      if duplicate_url_key key then
        match dict_get key settings with
        | None => (Exn KeyError, settings)
        | Some v =>
            let settings :=
              if negb (truthy main_url) && truthy v
              then dict_set "url" v settings else settings in
            clean_keys rest main_url (dict_del key settings) true
        end
      else clean_keys rest main_url settings needs_cleanup
  end.

(** [clean_duplicate_url_parameters(app_name, settings_path, settings)]:
    the dictionary is changed in place, so the result is the dictionary the
    caller goes on with; an exception is caught.  The debugging output is
    not part of the model. *)
Definition clean_duplicate_url_parameters (app_name settings_path : string)
    (settings : dict value) : M (dict value) :=
  match clean_keys (dict_keys settings) (get_default "url" (PyStr "") settings)
          settings false with
  | (Ok true, settings) => save_settings app_name settings;; ret settings
  | (Ok false, settings) => ret settings
  | (Exn _, settings) => ret settings
  end.

(** [for app_dir in os.listdir(APP_FOLDER)]: the listing gives each name
    with whether it is a directory. *)
Fixpoint load_dirs (listing : list (string * bool)) (new_apps : dict app_info)
    : M (dict app_info) :=
  match listing with
  | [] => ret new_apps
  | (app_dir, is_dir) :: rest =>
      if is_dir then
        let app_path := path_join APP_FOLDER app_dir in
        let settings_path := path_join app_path "settings.xml" in
        let* app_settings := (fun m => (Ok (load_settings settings_path m), m)) in
        let* app_settings :=
          clean_duplicate_url_parameters app_dir settings_path app_settings in
        load_dirs rest
          (dict_set app_dir (mkAppInfo app_dir app_path settings_path app_settings)
             new_apps)
      else load_dirs rest new_apps
  end.

(** [load_apps()], given the listing of the application folder. *)
Definition load_apps (listing : list (string * bool)) : M unit :=
  let* new_apps := load_dirs listing [] in
  modify (with_apps (fun _ => new_apps)).

(** [AppManager()] on a file system. *)
Definition init (listing : list (string * bool)) (disk : gmap string file) : AppManager :=
  (load_apps listing (mkAppManager [] ∅ ∅ None [] [] [] [] [] disk)).2.

(** Every handle of the registry names a process object, and no object is
    registered under two names. *)
Definition registry_ok (m : AppManager) : Prop :=
  (forall name h, processes m !! name = Some h -> (h < length (heap m))%nat) /\
  (forall name1 name2 h,
     processes m !! name1 = Some h -> processes m !! name2 = Some h -> name1 = name2).

(** The part of the state that belongs to running processes, timers and
    schedules is the same in [m'] as in [m]. *)
Definition same_runtime (m m' : AppManager) : Prop :=
  processes m' = processes m /\
  heap m' = heap m /\
  timers m' = timers m /\
  schedules m' = schedules m /\
  jobs m' = jobs m /\
  sink m' = sink m /\
  last_schedule_time m' = last_schedule_time m.

(** What [load_apps] stores for a directory: the paths are derived from its
    name, and the settings can be started and hold no duplicate of [url]. *)
Definition loaded_entry (name : string) (info : app_info) : Prop :=
  ai_name info = name /\
  ai_path info = path_join APP_FOLDER name /\
  ai_settings_path info = path_join (path_join APP_FOLDER name) "settings.xml" /\
  launchable (ai_settings info) = true /\
  forall k, duplicate_url_key k = true -> dict_get k (ai_settings info) = None.

(** A library that refuses weekly jobs, as [schedule] does for
    [every().week.at(...)], and accepts the others. *)
Definition weekly_refused (job : Job) : bool :=
  match j_unit job with
  | Weeks => false
  | _ => true
  end.

(** Three definitions, scheduled daily, weekly and every five minutes. *)
Definition three_apps : AppManager :=
  mkAppManager
    [("Backup", mkAppInfo "Backup" "apps/Backup" "apps/Backup/settings.xml"
                  (scheduled_settings "Daily" 60 "Minutes"));
     ("Report", mkAppInfo "Report" "apps/Report" "apps/Report/settings.xml"
                  (scheduled_settings "Weekly" 60 "Minutes"));
     ("Ping", ping_info (scheduled_settings "Interval" 5 "Minutes"))]
    ∅ ∅ None [] [] [] [] [] ∅.

(** * Properties *)

(** ** Dictionaries *)

Lemma dict_get_set_eq {V} (k : string) (v : V) (d : dict V) :
  dict_get k (dict_set k v d) = Some v.
Proof.
  induction d as [|[k' v'] d IH]; simpl.
  - by rewrite String.eqb_refl.
  - destruct (String.eqb k k') eqn:E; simpl; rewrite E; [done | exact IH].
Qed.

Lemma dict_get_set_ne {V} (k k0 : string) (v : V) (d : dict V) :
  k <> k0 -> dict_get k (dict_set k0 v d) = dict_get k d.
Proof.
  intros Hne. apply String.eqb_neq in Hne.
  induction d as [|[k' v'] d IH]; simpl.
  - by rewrite Hne.
  - destruct (String.eqb k0 k') eqn:E; simpl.
    + apply String.eqb_eq in E. subst k'. by rewrite Hne.
    + by rewrite IH.
Qed.

Lemma dict_get_set {V} (k k0 : string) (v : V) (d : dict V) :
  dict_get k (dict_set k0 v d) = if String.eqb k k0 then Some v else dict_get k d.
Proof.
  destruct (String.eqb_spec k k0) as [->|Hne].
  - apply dict_get_set_eq.
  - by apply dict_get_set_ne.
Qed.

Lemma dict_get_In {V} (k : string) (v : V) (d : dict V) :
  dict_get k d = Some v -> In (k, v) d.
Proof.
  induction d as [|[k' v'] d IH]; simpl; [done|].
  destruct (String.eqb_spec k k') as [->|Hne].
  - intros [= ->]. by left.
  - intros H. right. by apply IH.
Qed.

Lemma dict_get_None {V} (k : string) (d : dict V) :
  dict_get k d = None -> ~ In k (dict_keys d).
Proof.
  induction d as [|[k' v'] d IH]; simpl; [tauto|].
  destruct (String.eqb_spec k k') as [->|Hne]; [done|].
  intros H [Heq|Hin]; [congruence | by apply IH].
Qed.

Lemma In_dict_get {V} (k : string) (v : V) (d : dict V) :
  wf_dict d -> In (k, v) d -> dict_get k d = Some v.
Proof.
  unfold wf_dict. induction d as [|[k' v'] d IH]; simpl; [done|].
  intros Hnd [Heq|Hin].
  - inversion Heq; subst.
    by rewrite String.eqb_refl.
  - apply NoDup_cons in Hnd as [Hk Hnd].
    destruct (String.eqb_spec k k') as [->|Hne].
    + exfalso. apply Hk. apply list_elem_of_In.
      change (In k' (map fst d)). apply in_map_iff. by exists (k', v).
    + by apply IH.
Qed.

(** ** Lists of process objects *)

Lemma alter_last {A} (f : A -> A) (l : list A) (x : A) :
  alter f (length l) (l ++ [x])%list = (l ++ [f x])%list.
Proof. induction l as [|y l IH]; simpl; [done | by f_equal]. Qed.

Lemma lookup_last {A} (l : list A) (x : A) :
  (l ++ [x])%list !! length l = Some x.
Proof. induction l as [|y l IH]; simpl; [done | exact IH]. Qed.

Lemma state_terminate (p : Qt.QProcess) : Qt.state (Qt.terminate p) = Qt.state p.
Proof. unfold Qt.terminate. by destruct (Qt.state p) eqn:E. Qed.

(** ** Strings: a command that names a script has a first token *)

Lemma flush_nil (cur : list ascii) : flush cur = [] -> cur = [].
Proof. by destruct cur. Qed.

Lemma split_from_nil (cs cur : list ascii) :
  split_from cs cur = [] -> cur = [] /\ forallb is_space cs = true.
Proof.
  revert cur. induction cs as [|c r IH]; intros cur; simpl.
  - intros H. split; [by apply flush_nil | done].
  - destruct (is_space c) eqn:Hc.
    + intros H. apply app_eq_nil in H as [H1 H2].
      apply flush_nil in H1. apply IH in H2 as [_ H2]. by rewrite H2.
    + intros H. apply IH in H as [H _]. discriminate.
Qed.

Lemma lower_char_space (c : ascii) : is_space c = true -> lower_char c = c.
Proof.
  destruct c as [b0 b1 b2 b3 b4 b5 b6 b7].
  destruct b0, b1, b2, b3, b4, b5, b6, b7; (discriminate || reflexivity).
Qed.

Lemma lower_spaces (s : string) :
  forallb is_space (list_ascii_of_string s) = true ->
  forallb is_space (list_ascii_of_string (lower s)) = true.
Proof.
  induction s as [|c s IH]; simpl; [done|].
  intros H. apply andb_true_iff in H as [Hc Hs].
  rewrite (lower_char_space c Hc), Hc. simpl. by apply IH.
Qed.

Lemma substring_head_In (t : string) (i k : nat) (c : ascii) (r : string) :
  substring i k t = String c r -> In c (list_ascii_of_string t).
Proof.
  revert i k. induction t as [|a t IH]; intros i k; simpl.
  - destruct i, k; discriminate.
  - destruct i as [|i].
    + destruct k as [|k]; [discriminate|]. intros [= -> _]. by left.
    + intros H. right. by apply (IH i k).
Qed.

Lemma spaces_no_char (t : string) (c : ascii) :
  forallb is_space (list_ascii_of_string t) = true ->
  is_space c = false -> ~ In c (list_ascii_of_string t).
Proof.
  intros Hall Hc Hin. rewrite forallb_forall in Hall.
  apply Hall in Hin. congruence.
Qed.

Lemma spaces_not_contains (t sub : string) (c : ascii) (r : string) :
  forallb is_space (list_ascii_of_string t) = true ->
  sub = String c r -> is_space c = false -> contains sub t = false.
Proof.
  intros Hall -> Hc. unfold contains.
  destruct (String.index 0 (String c r) t) as [n|] eqn:E; [|done].
  apply index_correct1 in E. apply substring_head_In in E.
  by apply spaces_no_char in E.
Qed.

Lemma spaces_not_endswith (t sub : string) (c : ascii) (r : string) :
  forallb is_space (list_ascii_of_string t) = true ->
  sub = String c r -> is_space c = false -> endswith t sub = false.
Proof.
  intros Hall -> Hc. unfold endswith.
  destruct (_ <=? _)%nat; [rewrite andb_true_l|done].
  destruct (String.eqb_spec
              (substring (String.length t - String.length (String c r))
                 (String.length (String c r)) t) (String c r)) as [E|]; [|done].
  apply substring_head_In in E. by apply spaces_no_char in E.
Qed.

Lemma launch_call_total (command : string) :
  exists call, launch_call command = Some call.
Proof.
  unfold launch_call.
  destruct (endswith (lower command) ".bat" || endswith (lower command) ".cmd");
    [by eexists|].
  destruct (contains "python" (lower command) || endswith (lower command) ".py")
    eqn:Hpy.
  - destruct (split command) as [|program args] eqn:Hs.
    + exfalso. apply split_from_nil in Hs as [_ Hall].
      apply lower_spaces in Hall.
      rewrite (spaces_not_contains _ "python" "p" "ython" Hall) in Hpy by done.
      rewrite (spaces_not_endswith _ ".py" "." "py" Hall) in Hpy by done.
      discriminate.
    + repeat match goal with |- context [if ?b then _ else _] => destruct b end;
        by eexists.
  - destruct (split command) as [|program [|arg rest]]; by eexists.
Qed.

(** ** Process registry *)

Section RegistryProperties.

Variable spawn : Qt.launch -> bool.

Lemma start_app_running (m : AppManager) (app_name : string) (h : handle) :
  processes m !! app_name = Some h ->
  start_app spawn app_name m =
    (Ok false, with_stdout (fun out => (out ++ [MsgAlreadyRunning app_name])%list) m).
Proof.
  intros H. unfold start_app. rewrite H.
  by destruct (dict_get app_name (apps m)).
Qed.

Lemma start_app_not_found (m : AppManager) (app_name : string) :
  dict_get app_name (apps m) = None ->
  processes m !! app_name = None ->
  start_app spawn app_name m =
    (Ok false, with_stdout (fun out => (out ++ [MsgNotFound app_name])%list) m).
Proof. intros H1 H2. unfold start_app. by rewrite H1, H2. Qed.

Lemma start_app_no_command (m : AppManager) (app_name : string)
    (info : app_info) (path command : value) :
  dict_get app_name (apps m) = Some info ->
  processes m !! app_name = None ->
  dict_get "path" (ai_settings info) = Some path ->
  dict_get "command" (ai_settings info) = Some command ->
  text_value path = true ->
  truthy command = false ->
  start_app spawn app_name m =
    (Ok false,
     with_stdout (fun out =>
       (after_path app_name path out ++ [MsgNoCommand app_name])%list) m).
Proof.
  intros H1 H2 Hp Hc Ht Hf. unfold start_app, getitem. rewrite H1, H2.
  unfold bind, lift. rewrite Hp, Hc. unfold after_path.
  destruct path as [|s|b|n]; try discriminate; simpl.
  - by rewrite Hf.
  - destruct (String.eqb s ""); simpl; by rewrite Hf.
Qed.

Lemma start_app_launch (m : AppManager) (app_name : string)
    (info : app_info) (path : value) (command : string) :
  dict_get app_name (apps m) = Some info ->
  processes m !! app_name = None ->
  dict_get "path" (ai_settings info) = Some path ->
  dict_get "command" (ai_settings info) = Some (PyStr command) ->
  text_value path = true ->
  command <> "" ->
  exists call,
    launch_call command = Some call /\
    start_app spawn app_name m =
      (Ok true,
       mkAppManager (apps m)
         (<[app_name := length (heap m)]> (processes m))
         (schedules m) (last_schedule_time m)
         (heap m ++ [started_process spawn path call])%list
         (timers m) (jobs m) (sink m)
         (after_path app_name path (stdout m) ++ [MsgStarting app_name command])%list
         (files m)).
Proof.
  intros H1 H2 Hp Hc Ht Hne.
  destruct (launch_call_total command) as [call Hcall].
  exists call. split; [done|].
  apply String.eqb_neq in Hne.
  unfold start_app, getitem. rewrite H1, H2.
  unfold bind, lift. rewrite Hp, Hc. unfold after_path, started_process.
  destruct path as [|s|b|n]; try discriminate; simpl; rewrite ?Hne; simpl.
  - rewrite Hcall. simpl. unfold with_processes, with_heap; simpl.
    rewrite !alter_last. simpl. by rewrite lookup_last.
  - destruct (String.eqb_spec s "") as [->|Hs]; simpl; rewrite Hcall; simpl;
      unfold with_processes, with_heap; simpl;
      rewrite !alter_last; simpl; by rewrite lookup_last.
Qed.

End RegistryProperties.

Lemma reported_snoc (m : AppManager) (f : list message -> list message) (msg : message) :
  (forall out, exists out', f out = (out' ++ [msg])%list) ->
  reported (with_stdout f m) = Some msg.
Proof.
  intros Hf. unfold reported, with_stdout; simpl.
  destruct (Hf (stdout m)) as [out' ->]. apply last_snoc.
Qed.

Lemma is_app_running_true (m : AppManager) (app_name : string) (h : handle) :
  processes m !! app_name = Some h -> is_app_running app_name m = true.
Proof. intros H. unfold is_app_running. rewrite H. by apply bool_decide_eq_true. Qed.

Lemma is_app_running_false (m : AppManager) (app_name : string) :
  processes m !! app_name = None <-> is_app_running app_name m = false.
Proof.
  unfold is_app_running. rewrite bool_decide_eq_false.
  destruct (processes m !! app_name) as [h|]; split; intros H; try done.
  exfalso. apply H. by exists h.
Qed.

Lemma launchable_fields (settings : dict value) :
  launchable settings = true ->
  exists path command,
    dict_get "path" settings = Some path /\
    dict_get "command" settings = Some command /\
    text_value path = true /\ text_value command = true.
Proof.
  unfold launchable.
  destruct (dict_get "path" settings) as [path|]; [|done].
  destruct (dict_get "command" settings) as [command|]; [|done].
  intros H. apply andb_true_iff in H as [H1 H2]. by exists path, command.
Qed.

Lemma text_value_truthy (v : value) :
  text_value v = true -> truthy v = true -> exists s, v = PyStr s /\ s <> "".
Proof.
  destruct v as [|s|b|n]; try discriminate. simpl. intros _ H.
  exists s. split; [done|]. intros ->. discriminate.
Qed.

(** C1. If [app_name] has a live entry, [stop_app] returns [True] with the
    entry already deleted, so [is_app_running] is false at once although the
    state of the operating-system process is what it was (it may still be
    running); a second [stop_app] returns [False], reports "not running" and
    leaves registry, process objects, timers and definitions as they are. *)
Theorem stop_app_removes_entry (m : AppManager) (app_name : string) (process : handle) :
  processes m !! app_name = Some process ->
  exists m1 m2,
    stop_app app_name m = (Ok true, m1) /\
    processes m1 = delete app_name (processes m) /\
    is_app_running app_name m1 = false /\
    Qt.state <$> heap m1 !! process = Qt.state <$> heap m !! process /\
    stop_app app_name m1 = (Ok false, m2) /\
    reported m2 = Some (MsgNotRunning app_name) /\
    processes m2 = processes m1 /\
    heap m2 = heap m1 /\ timers m2 = timers m1 /\ apps m2 = apps m1.
Proof.
  intros H. unfold stop_app at 1. rewrite H.
  eexists _, _. split; [reflexivity|]. simpl.
  split; [done|]. split.
  { apply is_app_running_false. simpl. apply lookup_delete_eq. }
  split.
  { rewrite list_lookup_alter. case_decide; [|done].
    rewrite <- option_fmap_compose. apply option_fmap_ext.
    intros p. apply state_terminate. }
  unfold stop_app. simpl. rewrite lookup_delete_eq.
  split; [reflexivity|]. simpl. split; [|done].
  unfold reported. simpl. apply last_snoc.
Qed.

Section RegistryClaims.

Variable spawn : Qt.launch -> bool.


(** C3, as amended.  For a loaded definition whose command is the empty
    string, [start_app] returns [False] and leaves the registry (hence its
    size) and the process objects unchanged; the reason it prints is "no
    command" when the name has no live entry and "already running" when it
    has one, because the registry is tested first. *)
Theorem start_app_empty_command (m : AppManager) (app_name : string) (info : app_info) :
  dict_get app_name (apps m) = Some info ->
  launchable (ai_settings info) = true ->
  dict_get "command" (ai_settings info) = Some (PyStr "") ->
  exists m',
    start_app spawn app_name m = (Ok false, m') /\
    processes m' = processes m /\
    size (processes m') = size (processes m) /\
    heap m' = heap m /\
    reported m' = Some (if is_app_running app_name m
                        then MsgAlreadyRunning app_name
                        else MsgNoCommand app_name).
Proof.
  intros Ha Hl Hcmd.
  destruct (processes m !! app_name) as [h|] eqn:Hp.
  - eexists. split; [by apply (start_app_running spawn m app_name h)|].
    rewrite (is_app_running_true m app_name h Hp).
    repeat split; try done. apply reported_snoc. intros out. by eexists.
  - destruct (launchable_fields _ Hl) as (path & command & Hpath & Hc & Tp & _).
    eexists.
    split; [by apply (start_app_no_command spawn m app_name info path (PyStr ""))|].
    apply is_app_running_false in Hp. rewrite Hp.
    repeat split; try done. apply reported_snoc. intros out. by eexists.
Qed.

(** C4.  For a loaded definition with a non-empty command, two calls of
    [start_app] in a row: the first returns [True] when the name had no
    live entry, the second returns [False] and prints "already running",
    it changes nothing in the registry, and the registry then holds
    exactly one entry for the name. *)
Theorem start_app_twice (m : AppManager) (app_name : string) (info : app_info)
    (command : string) :
  dict_get app_name (apps m) = Some info ->
  launchable (ai_settings info) = true ->
  dict_get "command" (ai_settings info) = Some (PyStr command) ->
  command <> "" ->
  exists ok m1 m2,
    start_app spawn app_name m = (Ok ok, m1) /\
    (is_app_running app_name m = false -> ok = true) /\
    start_app spawn app_name m1 = (Ok false, m2) /\
    reported m2 = Some (MsgAlreadyRunning app_name) /\
    processes m2 = processes m1 /\
    size (filter (fun entry => entry.1 = app_name) (processes m2)) = 1%nat.
Proof.
  intros Ha Hl Hcmd Hne.
  assert (Hone : forall (reg : gmap string handle) h,
             reg !! app_name = Some h ->
             size (filter (fun entry => entry.1 = app_name) reg) = 1%nat).
  { intros reg h Hreg.
    replace (filter (fun entry => entry.1 = app_name) reg)
      with ({[app_name := h]} : gmap string handle); [apply map_size_singleton|].
    apply map_eq. intros k. destruct (decide (k = app_name)) as [->|Hk].
    - rewrite lookup_singleton_eq. symmetry.
      by apply map_lookup_filter_Some.
    - rewrite lookup_singleton_ne by done. symmetry.
      apply map_lookup_filter_None. right. intros x _. simpl. done. }
  destruct (processes m !! app_name) as [h|] eqn:Hp.
  - eexists _, _, _.
    split; [by apply (start_app_running spawn m app_name h)|].
    split. { rewrite (is_app_running_true m app_name h Hp). discriminate. }
    split; [by apply (start_app_running spawn _ app_name h)|].
    split. { apply reported_snoc. intros out. by eexists. }
    split; [done|]. simpl. by apply (Hone _ h).
  - destruct (launchable_fields _ Hl) as (path & cv & Hpath & Hc & Tp & _).
    destruct (start_app_launch spawn m app_name info path command Ha Hp Hpath Hcmd Tp Hne)
      as (call & Hcall & Heq).
    eexists _, _, _. split; [exact Heq|]. split; [done|].
    split.
    { apply (start_app_running spawn _ app_name (length (heap m))).
      simpl. apply lookup_insert_eq. }
    split. { apply reported_snoc. intros out. by eexists. }
    split; [done|]. simpl.
    apply (Hone _ (length (heap m))). apply lookup_insert_eq.
Qed.

(** C9.  Whatever the command, the launch that [start_app] makes carries
    an empty environment: [PYTHONUNBUFFERED] is inserted into the
    environment of the object only after [start] has run, so the variable
    is not part of what the process is launched with. *)
Theorem start_app_environment_after_launch (m : AppManager) (app_name : string)
    (info : app_info) (command : string) :
  dict_get app_name (apps m) = Some info ->
  processes m !! app_name = None ->
  launchable (ai_settings info) = true ->
  dict_get "command" (ai_settings info) = Some (PyStr command) ->
  command <> "" ->
  exists m' call p l,
    start_app spawn app_name m = (Ok true, m') /\
    launch_call command = Some call /\
    processes m' !! app_name = Some (length (heap m)) /\
    heap m' !! length (heap m) = Some p /\
    Qt.launched p = Some l /\
    Qt.l_call l = call /\
    dict_get "PYTHONUNBUFFERED" (Qt.l_env l) = None /\
    dict_get "PYTHONUNBUFFERED" (Qt.processEnvironment p) = Some "1".
Proof.
  intros Ha Hp Hl Hcmd Hne.
  destruct (launchable_fields _ Hl) as (path & cv & Hpath & Hc & Tp & _).
  destruct (start_app_launch spawn m app_name info path command Ha Hp Hpath Hcmd Tp Hne)
    as (call & Hcall & Heq).
  eexists _, call, _, _. split; [exact Heq|]. simpl.
  split; [done|]. split; [apply lookup_insert_eq|].
  split; [apply lookup_last|]. by repeat split.
Qed.

(** C10.  For a name that is not among the loaded definitions,
    [start_app] returns [False] and changes neither the definitions nor
    the registry (nor the process objects or the timers); it prints "not
    found", or "already running" if a live entry of that name remains. *)
Theorem start_app_unknown_name (m : AppManager) (app_name : string) :
  dict_get app_name (apps m) = None ->
  exists m',
    start_app spawn app_name m = (Ok false, m') /\
    apps m' = apps m /\
    processes m' = processes m /\
    heap m' = heap m /\
    timers m' = timers m /\
    reported m' = Some (if is_app_running app_name m
                        then MsgAlreadyRunning app_name
                        else MsgNotFound app_name).
Proof.
  intros Ha. destruct (processes m !! app_name) as [h|] eqn:Hp.
  - eexists. split; [by apply (start_app_running spawn m app_name h)|].
    rewrite (is_app_running_true m app_name h Hp).
    repeat split; try done. apply reported_snoc. intros out. by eexists.
  - eexists. split; [by apply start_app_not_found|].
    apply is_app_running_false in Hp. rewrite Hp.
    repeat split; try done. apply reported_snoc. intros out. by eexists.
Qed.

End RegistryClaims.

(** ** Schedule engine *)

Section ScheduleProperties.

Variable job_accepted : Job -> bool.

Lemma schedule_app_planned (entry : string * app_info) (m : AppManager) :
  schedule_app job_accepted entry m =
    match planned_job entry with
    | Ok (Some job) => add_job job_accepted (fst entry) job m
    | Ok None => (Ok tt, m)
    | Exn e => (Exn e, m)
    end.
Proof.
  unfold schedule_app, planned_job.
  repeat match goal with
         | |- context [if ?b then _ else _] => destruct b; try reflexivity
         end;
    unfold bind, lift;
    repeat match goal with
           | |- context [match ?r with Ok _ => _ | Exn _ => _ end] =>
               destruct r; try reflexivity
           end.
Qed.

Lemma add_job_schedules (app_name : string) (job : Job) (m : AppManager)
    (r : result unit) (m' : AppManager) :
  add_job job_accepted app_name job m = (r, m') ->
  (r = Ok tt /\ schedules m' = <[app_name := job]> (schedules m)) \/
  ((exists e, r = Exn e) /\ schedules m' = schedules m).
Proof.
  unfold add_job. destruct (job_accepted job).
  - intros [= <- <-]. by left.
  - intros [= <- <-]. right. split; [by eexists | done].
Qed.

Lemma schedule_app_schedules (entry : string * app_info) (m : AppManager)
    (r : result unit) (m' : AppManager) :
  schedule_app job_accepted entry m = (r, m') ->
  (exists job, planned_job entry = Ok (Some job) /\ r = Ok tt /\
               schedules m' = <[fst entry := job]> (schedules m)) \/
  (schedules m' = schedules m /\
   (r = Ok tt -> planned_job entry = Ok None)).
Proof.
  rewrite schedule_app_planned.
  destruct (planned_job entry) as [[job|]|e].
  - intros H. apply add_job_schedules in H as [[-> H]|[[e ->] H]].
    + left. by exists job.
    + right. split; [done | discriminate].
  - intros [= <- <-]. by right.
  - intros [= <- <-]. right. split; [done | discriminate].
Qed.

(** Where a job found after the loop comes from. *)
Lemma for_each_job_origin (l : dict app_info) (m : AppManager)
    (r : result unit) (m' : AppManager) (app_name : string) (job : Job) :
  for_each (schedule_app job_accepted) l m = (r, m') ->
  schedules m' !! app_name = Some job ->
  schedules m !! app_name = Some job \/
  exists info, In (app_name, info) l /\ planned_job (app_name, info) = Ok (Some job).
Proof.
  revert m. induction l as [|[k info] l IH]; intros m; simpl.
  - intros [= <- <-]. by left.
  - unfold bind at 1.
    destruct (schedule_app job_accepted (k, info) m) as [[[]|e] m1] eqn:E.
    + intros Hrest Hjob.
      destruct (IH m1 Hrest Hjob) as [Hm1|(info' & Hin & Hpl)].
      * apply schedule_app_schedules in E
          as [(job' & Hpl & _ & Hs)|[Hs _]]; simpl in *.
        -- rewrite Hs in Hm1.
           destruct (decide (k = app_name)) as [->|Hk].
           ++ rewrite lookup_insert_eq in Hm1. injection Hm1 as ->.
              right. exists info. by split; [left|].
           ++ rewrite lookup_insert_ne in Hm1 by done. by left.
        -- rewrite Hs in Hm1. by left.
      * right. exists info'. by split; [right|].
    + intros [= <- <-] Hjob.
      apply schedule_app_schedules in E as [(job' & _ & Hr & _)|[Hs _]];
        [discriminate|].
      rewrite Hs in Hjob. by left.
Qed.

Lemma for_each_other_names (l : dict app_info) (m : AppManager)
    (r : result unit) (m' : AppManager) (app_name : string) :
  for_each (schedule_app job_accepted) l m = (r, m') ->
  ~ In app_name (dict_keys l) ->
  schedules m' !! app_name = schedules m !! app_name.
Proof.
  revert m. induction l as [|[k info] l IH]; intros m; simpl.
  - by intros [= <- <-].
  - unfold bind at 1. intros H Hnot.
    assert (k <> app_name /\ ~ In app_name (dict_keys l)) as [Hk Hl] by tauto.
    destruct (schedule_app job_accepted (k, info) m) as [[[]|e] m1] eqn:E.
    + rewrite (IH m1 H Hl).
      apply schedule_app_schedules in E as [(job' & _ & _ & Hs)|[Hs _]];
        rewrite Hs; simpl; [by rewrite lookup_insert_ne | done].
    + injection H as <- <-.
      apply schedule_app_schedules in E as [(job' & _ & Hr & _)|[Hs _]];
        [discriminate | by rewrite Hs].
Qed.

(** A loop that runs to its end has built every planned job. *)
Lemma for_each_job_built (l : dict app_info) (m m' : AppManager)
    (app_name : string) (info : app_info) (job : Job) :
  for_each (schedule_app job_accepted) l m = (Ok tt, m') ->
  wf_dict l ->
  In (app_name, info) l ->
  planned_job (app_name, info) = Ok (Some job) ->
  schedules m' !! app_name = Some job.
Proof.
  unfold wf_dict. revert m. induction l as [|[k info0] l IH]; intros m; simpl;
    [tauto|].
  unfold bind at 1. intros H Hnd Hin Hpl.
  apply NoDup_cons in Hnd as [Hk Hnd].
  destruct (schedule_app job_accepted (k, info0) m) as [[[]|e] m1] eqn:E;
    [|discriminate].
  destruct Hin as [Heq|Hin].
  - injection Heq as -> ->.
    rewrite (for_each_other_names l m1 _ m' app_name H).
    + apply schedule_app_schedules in E as [(job' & Hpl' & _ & Hs)|[_ Hn]].
      * rewrite Hs. simpl. rewrite lookup_insert_eq. congruence.
      * rewrite Hn in Hpl by done. discriminate.
    + intros Hin. apply Hk. by apply list_elem_of_In.
  - by apply (IH m1).
Qed.

(** What [setup_schedules] leaves under a name whose planned job is known. *)
Lemma setup_schedules_job (m : AppManager) (r : result unit) (m' : AppManager)
    (app_name : string) (info : app_info) (job : Job) :
  wf_dict (apps m) ->
  dict_get app_name (apps m) = Some info ->
  planned_job (app_name, info) = Ok (Some job) ->
  setup_schedules job_accepted m = (r, m') ->
  (r = Ok tt -> schedules m' !! app_name = Some job) /\
  (forall job', schedules m' !! app_name = Some job' -> job' = job).
Proof.
  intros Hwf Ha Hpl. unfold setup_schedules, bind, modify. simpl.
  intros H. split.
  - intros ->. eapply for_each_job_built; eauto. by apply dict_get_In.
  - intros job' Hjob.
    destruct (for_each_job_origin _ _ _ _ _ _ H Hjob) as [Hempty|(info' & Hin & Hpl')].
    + simpl in Hempty. by rewrite lookup_empty in Hempty.
    + apply (In_dict_get _ _ _ Hwf) in Hin. congruence.
Qed.

End ScheduleProperties.

Section ScheduleClaims.

Variable spawn : Qt.launch -> bool.
Variable process_events : AppManager -> AppManager.
Variable job_accepted : Job -> bool.

(** C5, as amended.  For an enabled Interval schedule the job built by
    [setup_schedules] runs the scheduled start every [n] units, where [n]
    is the configured value raised to at least 1 when the unit is Seconds,
    and the configured value itself when the unit is Minutes or Hours.
    The job is there whenever [setup_schedules] returns, and no other job
    is ever stored under the name. *)
Theorem setup_schedules_interval (m : AppManager) (app_name : string)
    (info : app_info) (v : Z) (u : time_unit) :
  wf_dict (apps m) ->
  dict_get app_name (apps m) = Some info ->
  dict_get "schedule_enabled" (ai_settings info) = Some (PyBool true) ->
  dict_get "schedule_type" (ai_settings info) = Some (PyStr "Interval") ->
  dict_get "interval_value" (ai_settings info) = Some (PyInt v) ->
  dict_get "interval_unit" (ai_settings info) = Some (PyStr (unit_name u)) ->
  In u [Seconds; Minutes; Hours] ->
  forall r m',
    setup_schedules job_accepted m = (r, m') ->
    let n := match u with Seconds => Z.max 1 v | _ => v end in
    (r = Ok tt ->
     schedules m' !! app_name = Some (mkJob n u None (ScheduledAppRun app_name))) /\
    (forall job, schedules m' !! app_name = Some job ->
       job = mkJob n u None (ScheduledAppRun app_name) /\
       (u = Seconds -> 1 <= j_interval job)).
Proof.
  intros Hwf Ha He Ht Hv Hu Hin r m' Hsetup n.
  assert (Hpl : planned_job (app_name, info)
                = Ok (Some (mkJob n u None (ScheduledAppRun app_name)))).
  { unfold planned_job, get_default. simpl. rewrite He, Ht, Hv, Hu. simpl.
    subst n. destruct Hin as [<-|[<-|[<-|[]]]]; simpl; try done.
    destruct (Z.ltb_spec v 1); do 3 f_equal; lia. }
  destruct (setup_schedules_job job_accepted m r m' app_name info _ Hwf Ha Hpl Hsetup)
    as [Hbuilt Honly].
  split; [done|]. intros job Hjob. apply Honly in Hjob as ->.
  split; [done|]. intros ->. simpl. subst n. lia.
Qed.

(** C6.  For an enabled Monthly schedule, [setup_schedules] builds a job
    that runs every day at the configured time and calls the gate
    [check_monthly_schedule].  Run on a day of the month other than 1, the
    job changes nothing: no scheduled run is posted.  Run on day 1, it
    performs one scheduled run: it records the time and posts to the main
    thread exactly one run of the application, before the event loop gets
    control. *)
Theorem monthly_schedule_is_daily_gate (m : AppManager) (app_name : string)
    (info : app_info) (time_str : string) :
  wf_dict (apps m) ->
  dict_get app_name (apps m) = Some info ->
  dict_get "schedule_enabled" (ai_settings info) = Some (PyBool true) ->
  dict_get "schedule_type" (ai_settings info) = Some (PyStr "Monthly") ->
  dict_get "schedule_time" (ai_settings info) = Some (PyStr time_str) ->
  let gate := mkJob 1 Days (Some time_str) (CheckMonthlySchedule app_name) in
  (forall r m',
     setup_schedules job_accepted m = (r, m') ->
     (r = Ok tt -> schedules m' !! app_name = Some gate) /\
     (forall job, schedules m' !! app_name = Some job -> job = gate)) /\
  (forall s today now,
     dt_day today <> 1 ->
     run_job process_events gate today now s = (Ok tt, s)) /\
  (forall s today now,
     dt_day today = 1 ->
     run_job process_events gate today now s =
       (Ok tt,
        process_events
          (mkAppManager (apps s) (processes s) (schedules s)
             (Some (dt_clock now)) (heap s)
             (timers s ++ [(0%nat, ScheduledRunMainThread app_name)])%list
             (jobs s) (sink s)
             (stdout s ++ [MsgTriggered app_name])%list (files s)))).
Proof.
  intros Hwf Ha He Ht Htime gate.
  assert (Hpl : planned_job (app_name, info) = Ok (Some gate)).
  { unfold planned_job, get_default. simpl. by rewrite He, Ht, Htime. }
  split; [|split].
  - intros r m' Hsetup.
    by apply (setup_schedules_job job_accepted m r m' app_name info).
  - intros s today now Hday. unfold run_job, check_monthly_schedule. simpl.
    apply Z.eqb_neq in Hday. by rewrite Hday.
  - intros s today now Hday. unfold run_job, check_monthly_schedule. simpl.
    apply Z.eqb_eq in Hday. by rewrite Hday.
Qed.


End ScheduleClaims.

(** ** Integers: [int(str(n)) = n] *)

Lemma digits_of_uint (d : Decimal.uint) :
  forallb is_digit (list_ascii_of_string (NilEmpty.string_of_uint d)) = true.
Proof. induction d; simpl; auto. Qed.

Lemma digit_not_space (c : ascii) : is_digit c = true -> is_space c = false.
Proof.
  destruct c as [b0 b1 b2 b3 b4 b5 b6 b7].
  destruct b0, b1, b2, b3, b4, b5, b6, b7; (discriminate || reflexivity).
Qed.

Lemma digit_not_sign (c : ascii) :
  is_digit c = true ->
  Ascii.eqb c "-" = false /\ Ascii.eqb c "+" = false /\ Ascii.eqb c "_" = false.
Proof.
  destruct c as [b0 b1 b2 b3 b4 b5 b6 b7].
  destruct b0, b1, b2, b3, b4, b5, b6, b7; (discriminate || done).
Qed.

Lemma lstrip_head (c : ascii) (cs : list ascii) :
  is_space c = false -> lstrip (c :: cs) = c :: cs.
Proof. intros H. simpl. by rewrite H. Qed.

(** A string that neither starts nor ends with white space is its own strip. *)
Lemma strip_id (c : ascii) (cs : list ascii) (z : ascii) :
  is_space c = false ->
  last (c :: cs) = Some z -> is_space z = false ->
  strip (c :: cs) = c :: cs.
Proof.
  intros Hc Hlast Hz. unfold strip. rewrite (lstrip_head c cs Hc).
  destruct (rev (c :: cs)) as [|y ys] eqn:E.
  - apply (f_equal (@length ascii)) in E. rewrite length_rev in E. discriminate.
  - assert (y = z) as ->.
    { apply (f_equal (@rev ascii)) in E. rewrite rev_involutive in E.
      rewrite E in Hlast. simpl in Hlast.
      rewrite last_snoc in Hlast. congruence. }
    rewrite (lstrip_head z ys Hz), <- E. apply rev_involutive.
Qed.

Lemma last_digit (cs : list ascii) (z : ascii) :
  forallb is_digit cs = true -> last cs = Some z -> is_digit z = true.
Proof.
  intros Hall Hlast. rewrite forallb_forall in Hall. apply Hall.
  apply list_elem_of_In. by apply last_Some_elem_of.
Qed.

Lemma digits_ok_digits (cs : list ascii) :
  forallb is_digit cs = true -> digits_ok cs true = true.
Proof.
  induction cs as [|c cs IH]; simpl; [done|].
  intros H. apply andb_true_iff in H as [Hc Hcs]. rewrite Hc. by apply IH.
Qed.

Lemma filter_digits (cs : list ascii) :
  forallb is_digit cs = true -> List.filter is_digit cs = cs.
Proof.
  induction cs as [|c cs IH]; simpl; [done|].
  intros H. apply andb_true_iff in H as [Hc Hcs]. rewrite Hc. by rewrite IH.
Qed.

Lemma string_of_uint_cons (d : Decimal.uint) :
  exists c r,
    NilZero.string_of_uint d = String c r /\
    forallb is_digit (c :: list_ascii_of_string r) = true /\
    Z.of_uint <$> NilEmpty.uint_of_string (String c r) = Some (Z.of_uint d).
Proof.
  destruct d as [|d|d|d|d|d|d|d|d|d|d];
    [ exists "0"%char, EmptyString; by repeat split | .. ];
    (eexists _, _; split; [reflexivity|]; split;
     [ apply (digits_of_uint d)
     | match goal with
       | |- _ <$> NilEmpty.uint_of_string ?s = Some (Z.of_uint ?u) =>
           change s with (NilEmpty.string_of_uint u);
           by rewrite NilEmpty.usu
       end ]).
Qed.

Lemma str_of_Z_nonempty (n : Z) : str_of_Z n <> "".
Proof.
  unfold str_of_Z, NilZero.string_of_int.
  destruct (Z.to_int n) as [d|d]; [|done].
  destruct (string_of_uint_cons d) as (c & r & -> & _). done.
Qed.

Lemma int_of_digits (neg : bool) (c : ascii) (r : string) (u : Z) :
  forallb is_digit (c :: list_ascii_of_string r) = true ->
  Z.of_uint <$> NilEmpty.uint_of_string (String c r) = Some u ->
  int_of_str (if neg then String "-" (String c r) else String c r)
    = Some (if neg then - u else u).
Proof.
  intros Hd Hu.
  assert (Hc : is_digit c = true) by (simpl in Hd; by apply andb_true_iff in Hd as [? _]).
  assert (exists z, last (c :: list_ascii_of_string r) = Some z /\ is_space z = false)
    as (z & Hlast & Hz).
  { destruct (last (c :: list_ascii_of_string r)) as [z|] eqn:E.
    - exists z. split; [done|]. apply digit_not_space. by apply (last_digit _ _ Hd).
    - by apply last_None in E. }
  destruct (digit_not_sign c Hc) as (Hm & Hp & _).
  unfold int_of_str. destruct neg.
  - change (list_ascii_of_string (String "-" (String c r)))
      with ("-"%char :: c :: list_ascii_of_string r).
    rewrite (strip_id "-" (c :: list_ascii_of_string r) z); try done.
    unfold signed. simpl Ascii.eqb. cbv iota.
    simpl digits_ok. rewrite Hc.
    simpl in Hd. apply andb_true_iff in Hd as [_ Hr].
    rewrite (digits_ok_digits _ Hr).
    simpl List.filter. rewrite Hc, (filter_digits _ Hr).
    change (c :: list_ascii_of_string r) with (list_ascii_of_string (String c r)).
    rewrite string_of_list_ascii_of_string.
    destruct (NilEmpty.uint_of_string (String c r)); simpl in Hu; congruence.
  - change (list_ascii_of_string (String c r)) with (c :: list_ascii_of_string r).
    rewrite (strip_id c (list_ascii_of_string r) z); try done;
      [|by apply digit_not_space].
    unfold signed. rewrite Hm, Hp.
    simpl digits_ok. rewrite Hc.
    simpl in Hd. apply andb_true_iff in Hd as [_ Hr].
    rewrite (digits_ok_digits _ Hr).
    simpl List.filter. rewrite Hc, (filter_digits _ Hr).
    change (c :: list_ascii_of_string r) with (list_ascii_of_string (String c r)).
    rewrite string_of_list_ascii_of_string.
    destruct (NilEmpty.uint_of_string (String c r)); simpl in Hu; congruence.
Qed.

Lemma int_of_str_of_Z (n : Z) : int_of_str (str_of_Z n) = Some n.
Proof.
  pose proof (DecimalZ.of_to n) as Hn.
  unfold str_of_Z, NilZero.string_of_int.
  destruct (Z.to_int n) as [d|d]; simpl in Hn;
    destruct (string_of_uint_cons d) as (c & r & -> & Hd & Hu).
  - rewrite (int_of_digits false c r _ Hd Hu). by rewrite Hn.
  - rewrite (int_of_digits true c r _ Hd Hu). by rewrite Hn.
Qed.

(** ** Settings files *)

Lemma convert_bool_set (settings : dict value) (key : string) :
  convert_bool settings key = dict_set key (to_bool (dict_get key settings)) settings.
Proof. unfold convert_bool, to_bool. by destruct (dict_get key settings) as [[]|]. Qed.

Lemma convert_interval_set (settings : dict value) :
  convert_interval settings =
    dict_set "interval_value" (to_interval (dict_get "interval_value" settings)) settings.
Proof.
  unfold convert_interval, to_interval.
  destruct (dict_get "interval_value" settings) as [[]|]; try done;
    by destruct (Py.int _).
Qed.

Lemma convert_string_set (settings : dict value) (key : string) :
  convert_string settings key = dict_set key (to_string (dict_get key settings)) settings.
Proof. unfold convert_string, to_string. by destruct (dict_get key settings) as [[]|]. Qed.

Lemma convert_lookup (k : string) (settings : dict value) :
  dict_get k (convert settings) = converted k (dict_get k settings).
Proof.
  unfold convert, converted, string_keys, bool_keys, mem. simpl fold_left.
  rewrite !convert_string_set, convert_interval_set, !convert_bool_set.
  repeat (rewrite dict_get_set; simpl).
  repeat match goal with
         | |- context [String.eqb k ?lit] =>
             destruct (String.eqb_spec k lit) as [->|?]; simpl; try reflexivity
         end.
Qed.

Lemma In_keys_set {V} (x k : string) (v : V) (d : dict V) :
  In x (dict_keys (dict_set k v d)) -> x = k \/ In x (dict_keys d).
Proof.
  induction d as [|[k' v'] d IH]; simpl.
  - intros [->|[]]. by left.
  - destruct (String.eqb k k'); simpl; [tauto|].
    intros [->|H]; [tauto|]. apply IH in H. tauto.
Qed.

Lemma wf_dict_set {V} (k : string) (v : V) (d : dict V) :
  wf_dict d -> wf_dict (dict_set k v d).
Proof.
  unfold wf_dict. induction d as [|[k' v'] d IH]; simpl.
  - intros _. apply NoDup_singleton.
  - intros Hnd. apply NoDup_cons in Hnd as [Hk Hnd].
    destruct (String.eqb_spec k k') as [->|Hne]; simpl.
    + by apply NoDup_cons.
    + apply NoDup_cons. split; [|by apply IH].
      intros Hin. apply list_elem_of_In, In_keys_set in Hin as [->|Hin]; [done|].
      apply Hk. by apply list_elem_of_In.
Qed.

Lemma wf_load_params (params : list xml_param) (d : dict value) :
  wf_dict d -> wf_dict (load_params params d).2.
Proof.
  revert d. induction params as [|param rest IH]; intros d Hd; simpl; [done|].
  destruct (p_name param) as [name|]; [|done].
  destruct (_ && _); apply IH; [done | by apply wf_dict_set].
Qed.

Lemma wf_load_elems (root : list xml_elem) (d : dict value) :
  wf_dict d -> wf_dict (load_elems root d).2.
Proof.
  revert d. induction root as [|elem rest IH]; intros d Hd; simpl; [done|].
  destruct (String.eqb (e_tag elem) "parameters").
  - pose proof (wf_load_params (e_children elem) d Hd) as Hp.
    destruct (load_params (e_children elem) d) as [[[]|e] d1]; simpl in *; [|done].
    by apply IH.
  - apply IH. by apply wf_dict_set.
Qed.

Lemma wf_default_settings : wf_dict default_settings.
Proof.
  unfold wf_dict.
  apply (bool_decide_unpack (NoDup (dict_keys default_settings))).
  by vm_compute.
Qed.

Lemma wf_convert (settings : dict value) : wf_dict settings -> wf_dict (convert settings).
Proof.
  intros H. unfold convert, string_keys, bool_keys. simpl fold_left.
  rewrite !convert_string_set, convert_interval_set, !convert_bool_set.
  by repeat apply wf_dict_set.
Qed.

Lemma load_params_named (params : list xml_param) (d : dict value) :
  forallb (fun param => match p_name param with Some _ => true | None => false end)
    params = true ->
  (load_params params d).1 = Ok tt.
Proof.
  revert d. induction params as [|param rest IH]; intros d; simpl; [done|].
  destruct (p_name param) as [name|]; [|done]. simpl. intros H.
  destruct (_ && _); by apply IH.
Qed.

Lemma load_elems_named (root : list xml_elem) (d : dict value) :
  all_named root = true -> (load_elems root d).1 = Ok tt.
Proof.
  revert d. induction root as [|elem rest IH]; intros d; simpl; [done|].
  intros H. apply andb_true_iff in H as [He Hrest].
  destruct (String.eqb (e_tag elem) "parameters"); simpl in He.
  - pose proof (load_params_named (e_children elem) d He) as Hp.
    destruct (load_params (e_children elem) d) as [[[]|e] d1]; simpl in *;
      [by apply IH | discriminate].
  - by apply IH.
Qed.

(** A clean load is the conversion of a well-formed dictionary. *)
Lemma load_settings_clean (settings_path : string) (m : AppManager) :
  parses_cleanly settings_path m = true ->
  exists raw, wf_dict raw /\ load_settings settings_path m = convert raw.
Proof.
  unfold parses_cleanly, load_settings.
  destruct (files m !! settings_path) as [[|root]|].
  - intros _. exists default_settings. split; [apply wf_default_settings | reflexivity].
  - intros H.
    pose proof (load_elems_named root default_settings H) as Hok.
    pose proof (wf_load_elems root default_settings wf_default_settings) as Hwf.
    destruct (load_elems root default_settings) as [[[]|e] raw]; simpl in *;
      [by exists raw | discriminate].
  - intros _. exists default_settings. split; [apply wf_default_settings | reflexivity].
Qed.

Lemma dict_get_not_in {V} (k : string) (d : dict V) :
  ~ In k (dict_keys d) -> dict_get k d = None.
Proof.
  induction d as [|[k' v'] d IH]; simpl; [done|].
  intros H. destruct (String.eqb_spec k k') as [->|Hne]; [tauto|].
  apply IH. tauto.
Qed.

(** Reading back what [save_settings] wrote. *)
Lemma load_elems_saved (settings d : dict value) :
  wf_dict settings ->
  (forall k v, In (k, v) settings -> k <> "parameters") ->
  exists d',
    load_elems (map element_of settings) d = (Ok tt, d') /\
    forall k, dict_get k d' = match dict_get k settings with
                              | Some v => Some (reread v)
                              | None => dict_get k d
                              end.
Proof.
  unfold wf_dict. revert d.
  induction settings as [|[k0 v0] rest IH]; intros d Hwf Hnp; simpl.
  - by exists d.
  - apply NoDup_cons in Hwf as [Hk0 Hwf].
    assert (Hne : String.eqb k0 "parameters" = false).
    { apply String.eqb_neq. apply (Hnp k0 v0). by left. }
    rewrite Hne.
    destruct (IH (dict_set k0 (reread v0) d) Hwf) as (d' & Hload & Hget).
    { intros k v Hin. apply (Hnp k v). by right. }
    exists d'. split; [exact Hload|].
    intros k. rewrite Hget. destruct (String.eqb_spec k k0) as [->|Hk].
    + rewrite dict_get_not_in, dict_get_set_eq; [done|].
      intros Hin. apply Hk0. by apply list_elem_of_In.
    + destruct (dict_get k rest); [done|]. by apply dict_get_set_ne.
Qed.

Lemma not_standard_default (k : string) :
  mem k standard_keys = false -> dict_get k default_settings = None.
Proof.
  unfold mem, standard_keys. simpl.
  repeat match goal with
         | |- context [String.eqb k ?lit] =>
             destruct (String.eqb_spec k lit) as [->|?]; simpl; try discriminate
         end.
  done.
Qed.

Lemma converted_standard (k : string) (ov : option value) :
  mem k standard_keys = false -> converted k ov = ov.
Proof.
  unfold mem, standard_keys, converted, string_keys, bool_keys. simpl.
  repeat match goal with
         | |- context [String.eqb k ?lit] =>
             destruct (String.eqb_spec k lit) as [->|?]; simpl; try discriminate
         end.
  done.
Qed.

Lemma reread_to_string (ov : option value) :
  to_string (Some (reread (to_string ov))) = to_string ov.
Proof.
  assert (H : forall t, to_string (Some (reread (PyStr t))) = PyStr t).
  { intros t. unfold reread, element_of. simpl.
    destruct (String.eqb_spec t "") as [->|Hne]; done. }
  unfold to_string at 2 3. destruct ov as [[]|]; apply H.
Qed.

Lemma reread_to_bool (ov : option value) :
  to_bool (Some (reread (to_bool ov))) = to_bool ov.
Proof.
  assert (H : forall b, to_bool (Some (reread (PyBool b))) = PyBool b).
  { by intros []. }
  unfold to_bool at 2 3. destruct ov as [[]|]; apply H.
Qed.

Lemma reread_to_interval (ov : option value) :
  to_interval (Some (reread (to_interval ov))) = to_interval ov.
Proof.
  assert (H : forall n, to_interval (Some (reread (PyInt n))) = PyInt n).
  { intros n. unfold reread, element_of. simpl.
    destruct (String.eqb_spec (str_of_Z n) "") as [E|_].
    - by apply str_of_Z_nonempty in E.
    - simpl. by rewrite int_of_str_of_Z. }
  unfold to_interval at 2 3.
  destruct ov as [[]|]; try apply H; destruct (Py.int _); apply H.
Qed.

(** The conversions undo what writing and reading back did to a
    standard field. *)
Lemma converted_reread (k : string) (ov : option value) (v : value) :
  mem k standard_keys = true ->
  converted k ov = Some v ->
  converted k (Some (reread v)) = Some v.
Proof.
  unfold converted, mem, standard_keys, string_keys, bool_keys. simpl.
  repeat match goal with
         | |- context [String.eqb k ?lit] =>
             destruct (String.eqb_spec k lit) as [->|?]; simpl
         end;
    intros Hstd; try discriminate; intros [= <-];
    first [ exact (f_equal Some (reread_to_string ov))
          | exact (f_equal Some (reread_to_interval ov))
          | exact (f_equal Some (reread_to_bool ov)) ].
Qed.

(** What the loader returns can always be started: [path] and [command]
    are present and are strings or [None]. *)
Lemma load_settings_launchable (settings_path : string) (m : AppManager) :
  launchable (load_settings settings_path m) = true.
Proof.
  assert (Hinv : forall root d,
             launchable d = true -> launchable (load_elems root d).2 = true).
  { assert (Hset : forall k t d,
               launchable d = true -> launchable (dict_set k (of_text t) d) = true).
    { intros k t d. unfold launchable. rewrite !dict_get_set.
      destruct (String.eqb "path" k), (String.eqb "command" k),
        (dict_get "path" d), (dict_get "command" d), t; simpl; try done;
        rewrite ?andb_true_r; try done;
        intros H; apply andb_true_iff in H as [? ?]; done. }
    assert (Hpar : forall params d,
               launchable d = true -> launchable (load_params params d).2 = true).
    { induction params as [|param rest IH]; intros d Hd; simpl; [done|].
      destruct (p_name param); [|done].
      destruct (_ && _); apply IH; [done | by apply Hset]. }
    induction root as [|elem rest IH]; intros d Hd; simpl; [done|].
    destruct (String.eqb (e_tag elem) "parameters").
    - pose proof (Hpar (e_children elem) d Hd) as Hp.
      destruct (load_params (e_children elem) d) as [[[]|e] d1]; simpl in *;
        [by apply IH | done].
    - apply IH. by apply Hset. }
  unfold load_settings.
  destruct (files m !! settings_path) as [[|root]|]; try reflexivity.
  pose proof (Hinv root default_settings eq_refl) as H.
  destruct (load_elems root default_settings) as [[[]|e] d]; simpl in H; [|done].
  unfold launchable. rewrite !convert_lookup. unfold converted, to_string. simpl.
  by destruct (dict_get "path" d) as [[]|], (dict_get "command" d) as [[]|].
Qed.

(** C8, as amended.  When the settings file loads without an error and
    every entry of the loaded settings is a standard field or a non-empty
    string under a key other than [parameters], and keys and texts are
    plain, [save_settings] succeeds and loading the saved file again gives
    the same value under every key. *)
Theorem save_load_round_trip (m : AppManager) (app_name : string) (info : app_info) :
  dict_get app_name (apps m) = Some info ->
  parses_cleanly (ai_settings_path info) m = true ->
  round_trip_safe (load_settings (ai_settings_path info) m) = true ->
  serialisable (load_settings (ai_settings_path info) m) = true ->
  exists m',
    save_settings app_name (load_settings (ai_settings_path info) m) m = (Ok true, m') /\
    forall k,
      dict_get k (load_settings (ai_settings_path info) m') =
      dict_get k (load_settings (ai_settings_path info) m).
Proof.
  intros Ha Hclean Hsafe Hser.
  set (path := ai_settings_path info) in *.
  set (s1 := load_settings path m) in *.
  destruct (load_settings_clean path m Hclean) as (raw & Hraw & Hs1).
  fold s1 in Hs1.
  assert (Hwf : wf_dict s1) by (rewrite Hs1; by apply wf_convert).
  assert (Hentry : forall k v, In (k, v) s1 -> kept_entry (k, v) = true).
  { intros k v Hin. unfold round_trip_safe in Hsafe.
    rewrite forallb_forall in Hsafe. by apply Hsafe. }
  assert (Hnp : forall k v, In (k, v) s1 -> k <> "parameters").
  { intros k v Hin ->. apply Hentry in Hin. by vm_compute in Hin. }
  destruct (load_elems_saved s1 default_settings Hwf Hnp) as (d' & Hload & Hget).
  unfold save_settings. rewrite Ha, Hser.
  eexists. split; [reflexivity|].
  intros k. unfold load_settings at 1. simpl. fold path.
  rewrite lookup_insert_eq, Hload, convert_lookup, Hget.
  destruct (mem k standard_keys) eqn:Hstd.
  - assert (Hk : dict_get k s1 = converted k (dict_get k raw))
      by (rewrite Hs1; apply convert_lookup).
    destruct (dict_get k s1) as [v|] eqn:Hv.
    + by apply (converted_reread k (dict_get k raw)).
    + exfalso. revert Hk. unfold converted. revert Hstd.
      unfold mem, standard_keys, string_keys, bool_keys. simpl.
      repeat match goal with
             | |- context [String.eqb k ?lit] =>
                 destruct (String.eqb_spec k lit) as [->|?]; simpl
             end; done.
  - rewrite converted_standard by done.
    destruct (dict_get k s1) as [v|] eqn:Hv.
    + apply dict_get_In, Hentry in Hv. unfold kept_entry in Hv.
      cbn [fst snd] in Hv. rewrite Hstd in Hv. simpl in Hv.
      apply andb_true_iff in Hv as [_ Hv].
      destruct v as [|t|b|n]; try discriminate.
      unfold reread, element_of. simpl.
      by destruct (String.eqb t "").
    + by apply not_standard_default.
Qed.

(** * Concrete runs *)

Example split_on_white_space : split "  ping   -n 3	localhost " = ["ping"; "-n"; "3"; "localhost"].
Proof. reflexivity. Qed.

Example int_of_padded_text : int_of_str " +1_000 " = Some 1000.
Proof. reflexivity. Qed.

Example int_of_bad_text : int_of_str "1__0" = None /\ int_of_str "" = None /\ int_of_str "- 1" = None.
Proof. by vm_compute. Qed.

Example launch_call_batch :
  launch_call "Run Python.BAT" = Some (Qt.StartProgram "cmd.exe" ["/c"; "Run Python.BAT"]).
Proof. reflexivity. Qed.

Example launch_call_script :
  launch_call "tools/job.py" = Some (Qt.StartProgram "python" ["-u"; "tools/job.py"]).
Proof. reflexivity. Qed.

Example launch_call_plain :
  launch_call "ping localhost" = Some (Qt.StartProgram "ping" ["localhost"]) /\
  launch_call "ping" = Some (Qt.StartCommand "ping").
Proof. by split. Qed.

Lemma stop_app_removes_entry_witness :
  processes ping_running !! "Ping" = Some 0%nat /\
  exists m1 m2,
    stop_app "Ping" ping_running = (Ok true, m1) /\
    is_app_running "Ping" m1 = false /\
    Qt.state <$> heap m1 !! 0%nat = Some Qt.Starting /\
    stop_app "Ping" m1 = (Ok false, m2) /\
    processes m2 = processes m1.
Proof.
  split; [by vm_compute|].
  destruct (stop_app_removes_entry ping_running "Ping" 0%nat)
    as (m1 & m2 & H1 & _ & H2 & H3 & H4 & _ & H5 & _); [by vm_compute|].
  exists m1, m2. repeat split; try done; rewrite H3; by vm_compute.
Defined.




(** C3, the claim as stated fails: the command of Ping is empty, and
    [start_app] fails with "already running", not with "no command". *)
Lemma start_app_empty_command_running :
  dict_get "Ping" (apps ping_edited) = Some (ping_info (ping_settings "")) /\
  dict_get "command" (ping_settings "") = Some (PyStr "") /\
  (start_app os_accepts "Ping" ping_edited).1 = Ok false /\
  reported (start_app os_accepts "Ping" ping_edited).2 = Some (MsgAlreadyRunning "Ping") /\
  reported (start_app os_accepts "Ping" ping_edited).2 <> Some (MsgNoCommand "Ping").
Proof. by vm_compute. Qed.

Lemma start_app_empty_command_witness :
  dict_get "Ping" (apps (ping_manager (ping_settings ""))) = Some (ping_info (ping_settings "")) /\
  launchable (ping_settings "") = true /\
  dict_get "command" (ping_settings "") = Some (PyStr "") /\
  exists m',
    start_app os_accepts "Ping" (ping_manager (ping_settings "")) = (Ok false, m') /\
    size (processes m') = 0%nat /\
    reported m' = Some (MsgNoCommand "Ping").
Proof.
  repeat split; try reflexivity.
  destruct (start_app_empty_command os_accepts (ping_manager (ping_settings ""))
              "Ping" (ping_info (ping_settings "")) eq_refl eq_refl eq_refl)
    as (m' & H1 & _ & H2 & _ & H3).
  exists m'. repeat split; [done | by rewrite H2 | exact H3].
Defined.

Lemma start_app_twice_witness :
  dict_get "Ping" (apps (ping_manager (ping_settings "ping localhost")))
    = Some (ping_info (ping_settings "ping localhost")) /\
  launchable (ping_settings "ping localhost") = true /\
  dict_get "command" (ping_settings "ping localhost") = Some (PyStr "ping localhost") /\
  "ping localhost" <> "" /\
  exists m1 m2,
    start_app os_accepts "Ping" (ping_manager (ping_settings "ping localhost")) = (Ok true, m1) /\
    start_app os_accepts "Ping" m1 = (Ok false, m2) /\
    reported m2 = Some (MsgAlreadyRunning "Ping") /\
    size (filter (fun entry => entry.1 = "Ping") (processes m2)) = 1%nat.
Proof.
  repeat split; try reflexivity; try discriminate.
  destruct (start_app_twice os_accepts (ping_manager (ping_settings "ping localhost"))
              "Ping" (ping_info (ping_settings "ping localhost")) "ping localhost"
              eq_refl eq_refl eq_refl)
    as (ok & m1 & m2 & H1 & H2 & H3 & H4 & _ & H5); [discriminate|].
  exists m1, m2. rewrite H2 in H1 by reflexivity. by repeat split.
Defined.

(** C9, the failing run: [python app.py] is launched with [-u] but with an
    empty environment; the variable is in the environment of the object only
    afterwards. *)
Lemma start_app_environment_after_launch_witness :
  let m := ping_manager (ping_settings "python app.py") in
  dict_get "Ping" (apps m) = Some (ping_info (ping_settings "python app.py")) /\
  processes m !! "Ping" = None /\
  launchable (ping_settings "python app.py") = true /\
  dict_get "command" (ping_settings "python app.py") = Some (PyStr "python app.py") /\
  "python app.py" <> "" /\
  exists m' p l,
    start_app os_accepts "Ping" m = (Ok true, m') /\
    heap m' !! 0%nat = Some p /\
    Qt.launched p = Some l /\
    Qt.l_call l = Qt.StartProgram "python" ["-u"; "app.py"] /\
    dict_get "PYTHONUNBUFFERED" (Qt.l_env l) = None /\
    dict_get "PYTHONUNBUFFERED" (Qt.processEnvironment p) = Some "1".
Proof.
  repeat split; try reflexivity; try discriminate.
  destruct (start_app_environment_after_launch os_accepts
              (ping_manager (ping_settings "python app.py")) "Ping"
              (ping_info (ping_settings "python app.py")) "python app.py"
              eq_refl eq_refl eq_refl eq_refl)
    as (m' & call & p & l & H1 & H2 & _ & H3 & H4 & H5 & H6 & H7); [discriminate|].
  exists m', p, l. repeat split; try done;
    rewrite H5; vm_compute in H2; congruence.
Defined.

(** The flag is left out when [-u] occurs anywhere in the command line. *)
Example launch_call_without_flag :
  launch_call "python run-update.py" = Some (Qt.StartProgram "python" ["run-update.py"]).
Proof. reflexivity. Qed.

Lemma start_app_unknown_name_witness :
  dict_get "Pong" (apps ping_running) = None /\
  exists m',
    start_app os_accepts "Pong" ping_running = (Ok false, m') /\
    apps m' = apps ping_running /\
    processes m' = processes ping_running /\
    reported m' = Some (MsgNotFound "Pong").
Proof.
  split; [reflexivity|].
  destruct (start_app_unknown_name os_accepts ping_running "Pong" eq_refl)
    as (m' & H1 & H2 & H3 & _ & _ & H4).
  exists m'. repeat split; try done; rewrite H4; by vm_compute.
Defined.

Lemma wf_ping (settings : dict value) : wf_dict (apps (ping_manager settings)).
Proof. unfold wf_dict. simpl. apply NoDup_singleton. Qed.

(** C5, the claim as stated fails: an enabled Interval schedule of 0
    Minutes is built as a job that runs every 0 minutes. *)
Lemma setup_schedules_zero_minutes :
  let m := ping_manager (scheduled_settings "Interval" 0 "Minutes") in
  (setup_schedules library_accepts m).1 = Ok tt /\
  schedules (setup_schedules library_accepts m).2 !! "Ping"
    = Some (mkJob 0 Minutes None (ScheduledAppRun "Ping")) /\
  ~ 1 <= j_interval (mkJob 0 Minutes None (ScheduledAppRun "Ping")).
Proof. split; [by vm_compute|]. split; [by vm_compute|]. simpl. lia. Qed.

Lemma setup_schedules_interval_witness :
  let m := ping_manager (scheduled_settings "Interval" (-5) "Seconds") in
  wf_dict (apps m) /\
  dict_get "Ping" (apps m) = Some (ping_info (scheduled_settings "Interval" (-5) "Seconds")) /\
  dict_get "schedule_enabled" (scheduled_settings "Interval" (-5) "Seconds") = Some (PyBool true) /\
  dict_get "schedule_type" (scheduled_settings "Interval" (-5) "Seconds") = Some (PyStr "Interval") /\
  dict_get "interval_value" (scheduled_settings "Interval" (-5) "Seconds") = Some (PyInt (-5)) /\
  dict_get "interval_unit" (scheduled_settings "Interval" (-5) "Seconds") = Some (PyStr "Seconds") /\
  In Seconds [Seconds; Minutes; Hours] /\
  schedules (setup_schedules library_accepts m).2 !! "Ping"
    = Some (mkJob 1 Seconds None (ScheduledAppRun "Ping")).
Proof.
  intros m. split; [apply wf_ping|]. do 5 (split; [reflexivity|]).
  split; [by left|].
  destruct (setup_schedules_interval library_accepts m "Ping"
              (ping_info (scheduled_settings "Interval" (-5) "Seconds")) (-5) Seconds
              (wf_ping _) eq_refl eq_refl eq_refl eq_refl eq_refl
              (or_introl eq_refl) _ _ (surjective_pairing _)) as [H _].
  apply H. by vm_compute.
Defined.

Lemma monthly_schedule_is_daily_gate_witness :
  let m := ping_manager monthly_settings in
  let gate := mkJob 1 Days (Some "09:00") (CheckMonthlySchedule "Ping") in
  wf_dict (apps m) /\
  dict_get "Ping" (apps m) = Some (ping_info monthly_settings) /\
  dict_get "schedule_enabled" monthly_settings = Some (PyBool true) /\
  dict_get "schedule_type" monthly_settings = Some (PyStr "Monthly") /\
  dict_get "schedule_time" monthly_settings = Some (PyStr "09:00") /\
  schedules (setup_schedules library_accepts m).2 !! "Ping" = Some gate /\
  run_job no_pending_events gate (mkDatetime 15 "09:00:00") (mkDatetime 15 "09:00:00") m
    = (Ok tt, m) /\
  timers (run_job no_pending_events gate (mkDatetime 1 "09:00:00")
            (mkDatetime 1 "09:00:00") m).2
    = [(0%nat, ScheduledRunMainThread "Ping")].
Proof.
  intros m gate. split; [apply wf_ping|]. do 4 (split; [reflexivity|]).
  destruct (monthly_schedule_is_daily_gate no_pending_events library_accepts m "Ping"
              (ping_info monthly_settings) "09:00"
              (wf_ping _) eq_refl eq_refl eq_refl eq_refl) as (Hb & Hoff & Hon).
  split; [|split].
  - apply (Hb _ _ (surjective_pairing _)). by vm_compute.
  - by apply Hoff.
  - by rewrite Hon.
Defined.


(** C8, the claim as stated fails: a settings file with an element
    [<api_key/>] that has no text loads it as [None]; the saved file holds
    the text [None], and loading it again gives the string ["None"]. *)
Lemma round_trip_loses_none :
  let m := ping_on_disk [mkElem "command" (Some "ping localhost") [];
                         mkElem "api_key" None []] in
  let first := load_settings "apps/Ping/settings.xml" m in
  let saved := save_settings "Ping" first m in
  saved.1 = Ok true /\
  dict_get "api_key" first = Some PyNone /\
  dict_get "api_key" (load_settings "apps/Ping/settings.xml" saved.2)
    = Some (PyStr "None") /\
  dict_get "api_key" (load_settings "apps/Ping/settings.xml" saved.2)
    <> dict_get "api_key" first.
Proof. by vm_compute. Qed.

Lemma save_load_round_trip_witness :
  let m := ping_on_disk [mkElem "command" (Some "ping localhost") [];
                         mkElem "autorun" (Some "TRUE") [];
                         mkElem "interval_value" (Some " 1_5 ") [];
                         mkElem "parameters" None [mkParam (Some "token") (Some "abc")]] in
  dict_get "Ping" (apps m) = Some (ping_info default_settings) /\
  parses_cleanly "apps/Ping/settings.xml" m = true /\
  round_trip_safe (load_settings "apps/Ping/settings.xml" m) = true /\
  serialisable (load_settings "apps/Ping/settings.xml" m) = true /\
  exists m',
    save_settings "Ping" (load_settings "apps/Ping/settings.xml" m) m = (Ok true, m') /\
    dict_get "token" (load_settings "apps/Ping/settings.xml" m') = Some (PyStr "abc") /\
    dict_get "interval_value" (load_settings "apps/Ping/settings.xml" m') = Some (PyInt 15) /\
    dict_get "autorun" (load_settings "apps/Ping/settings.xml" m') = Some (PyBool true).
Proof.
  intros m.
  assert (H1 : dict_get "Ping" (apps m) = Some (ping_info default_settings))
    by reflexivity.
  assert (H2 : parses_cleanly "apps/Ping/settings.xml" m = true) by (by vm_compute).
  assert (H3 : round_trip_safe (load_settings "apps/Ping/settings.xml" m) = true)
    by (by vm_compute).
  assert (H4 : serialisable (load_settings "apps/Ping/settings.xml" m) = true)
    by (by vm_compute).
  do 4 (split; [assumption|]).
  destruct (save_load_round_trip m "Ping" (ping_info default_settings) H1 H2 H3 H4)
    as (m' & Hsave & Hsame).
  exists m'. split; [exact Hsave|].
  split; [|split]; (etransitivity; [apply Hsame | by vm_compute]).
Defined.


(** * Further properties of the manager *)

(** ** The loader *)

Lemma dict_set_keeps {V} (k k0 : string) (v : V) (d : dict V) :
  is_Some (dict_get k d) -> is_Some (dict_get k (dict_set k0 v d)).
Proof.
  intros H. rewrite dict_get_set. by destruct (String.eqb k k0).
Qed.

Lemma load_params_keeps (k : string) (params : list xml_param) (d : dict value) :
  is_Some (dict_get k d) -> is_Some (dict_get k (load_params params d).2).
Proof.
  revert d. induction params as [|param rest IH]; intros d Hd; simpl; [done|].
  destruct (p_name param); [|done].
  destruct (_ && _); apply IH; [done | by apply dict_set_keeps].
Qed.

Lemma load_elems_keeps (k : string) (root : list xml_elem) (d : dict value) :
  is_Some (dict_get k d) -> is_Some (dict_get k (load_elems root d).2).
Proof.
  revert d. induction root as [|elem rest IH]; intros d Hd; simpl; [done|].
  destruct (String.eqb (e_tag elem) "parameters").
  - pose proof (load_params_keeps k (e_children elem) d Hd) as Hp.
    destruct (load_params (e_children elem) d) as [[[]|e] d1]; simpl in *;
      [by apply IH | done].
  - apply IH. by apply dict_set_keeps.
Qed.

Lemma convert_keeps (k : string) (d : dict value) :
  is_Some (dict_get k d) -> is_Some (dict_get k (convert d)).
Proof.
  intros H. unfold convert, string_keys, bool_keys. simpl fold_left.
  rewrite !convert_string_set, convert_interval_set, !convert_bool_set.
  by repeat apply dict_set_keeps.
Qed.

(** X1.  Whatever the settings file is (absent, not XML, or stopping the
    loader with an exception), each of the twelve standard fields is present
    in the dictionary that [load_settings] returns. *)
Theorem load_settings_standard_fields (settings_path : string) (m : AppManager) :
  Forall (fun k => is_Some (dict_get k (load_settings settings_path m))) standard_keys.
Proof.
  apply Forall_forall. intros k Hk.
  assert (Hdef : is_Some (dict_get k default_settings)).
  { apply list_elem_of_In in Hk. unfold standard_keys in Hk. simpl in Hk.
    repeat (destruct Hk as [<-|Hk]; [by eexists|]). done. }
  unfold load_settings.
  destruct (files m !! settings_path) as [[|root]|]; try done.
  pose proof (load_elems_keeps k root default_settings Hdef) as H.
  destruct (load_elems root default_settings) as [[[]|e] d]; simpl in H; [|done].
  by apply convert_keeps.
Qed.

(** X2.  When the file loads without an exception, the loader returns the
    two flags as booleans, the interval as an integer and the nine text
    fields as strings, never [None]. *)
Theorem load_settings_types (settings_path : string) (m : AppManager) :
  parses_cleanly settings_path m = true ->
  Forall (fun k => exists b, dict_get k (load_settings settings_path m) = Some (PyBool b))
    bool_keys /\
  (exists n, dict_get "interval_value" (load_settings settings_path m) = Some (PyInt n)) /\
  Forall (fun k => exists t, dict_get k (load_settings settings_path m) = Some (PyStr t))
    string_keys.
Proof.
  intros Hclean.
  destruct (load_settings_clean settings_path m Hclean) as (raw & _ & ->).
  assert (Hb : forall ov, exists b, to_bool ov = PyBool b).
  { intros [[]|]; by eexists. }
  assert (Hi : forall ov, exists n, to_interval ov = PyInt n).
  { intros [[]|]; simpl; try by eexists.
    all: match goal with |- context [match ?x with _ => _ end] => destruct x end;
      by eexists. }
  assert (Hs : forall ov, exists t, to_string ov = PyStr t).
  { intros [[]|]; by eexists. }
  split; [|split].
  - unfold bool_keys. repeat (apply Forall_cons; split);
      [..|apply Forall_nil_2]; rewrite convert_lookup; unfold converted; simpl;
      match goal with
      | |- context [to_bool ?o] => destruct (Hb o) as [b ->]; by exists b
      end.
  - rewrite convert_lookup. destruct (Hi (dict_get "interval_value" raw)) as [n Heq].
    exists n. unfold converted. simpl. by rewrite Heq.
  - unfold string_keys. repeat (apply Forall_cons; split);
      [..|apply Forall_nil_2]; rewrite convert_lookup; unfold converted; simpl;
      match goal with
      | |- context [to_string ?o] => destruct (Hs o) as [t ->]; by exists t
      end.
Qed.

Lemma load_settings_types_witness :
  let m := ping_on_disk [mkElem "autorun" (Some "yes") [];
                         mkElem "interval_value" (Some "often") [];
                         mkElem "command" None []] in
  parses_cleanly "apps/Ping/settings.xml" m = true /\
  Forall (fun k => exists b,
            dict_get k (load_settings "apps/Ping/settings.xml" m) = Some (PyBool b))
    bool_keys /\
  (exists n, dict_get "interval_value" (load_settings "apps/Ping/settings.xml" m)
             = Some (PyInt n)) /\
  Forall (fun k => exists t,
            dict_get k (load_settings "apps/Ping/settings.xml" m) = Some (PyStr t))
    string_keys.
Proof.
  intros m.
  assert (H : parses_cleanly "apps/Ping/settings.xml" m = true) by (by vm_compute).
  split; [exact H | exact (load_settings_types "apps/Ping/settings.xml" m H)].
Defined.

(** X3.  Inside a [<parameters>] element, once the main [url] is non-empty,
    a parameter whose name is [url] in any letter case is skipped: the loop
    changes no entry stored under such a name. *)
Theorem load_params_skips_url (params : list xml_param) (settings : dict value)
    (url : value) (k : string) :
  dict_get "url" settings = Some url ->
  truthy url = true ->
  lower k = "url" ->
  dict_get k (load_params params settings).2 = dict_get k settings.
Proof.
  intros Hurl Htruthy Hk. revert settings Hurl.
  induction params as [|param rest IH]; intros settings Hurl; simpl; [done|].
  destruct (p_name param) as [name|]; [|done].
  rewrite Hurl, Htruthy, andb_true_r.
  destruct (String.eqb_spec (lower name) "url") as [Hname|Hname].
  - by apply IH.
  - assert (Hne : k <> name) by (intros ->; congruence).
    assert (Hne' : "url" <> name) by (intros <-; by apply Hname).
    rewrite IH; [by apply dict_get_set_ne|].
    by rewrite dict_get_set_ne.
Qed.

Lemma load_params_skips_url_witness :
  let settings := dict_set "url" (PyStr "http://localhost") default_settings in
  dict_get "url" settings = Some (PyStr "http://localhost") /\
  truthy (PyStr "http://localhost") = true /\
  lower "URL" = "url" /\
  dict_get "URL" (load_params [mkParam (Some "Url") (Some "a");
                               mkParam (Some "URL") (Some "b")] settings).2 = None.
Proof.
  intros settings. do 3 (split; [reflexivity|]).
  by rewrite (load_params_skips_url _ settings (PyStr "http://localhost") "URL").
Defined.

(** ** Cleaning duplicate [url] parameters and loading the folder *)

Lemma dict_get_del {V} (k k0 : string) (d : dict V) :
  dict_get k (dict_del k0 d) = if String.eqb k k0 then None else dict_get k d.
Proof.
  unfold dict_del. induction d as [|[k' v'] d IH]; simpl.
  - by destruct (String.eqb k k0).
  - destruct (String.eqb_spec k' k0) as [->|Hne]; simpl.
    + rewrite IH. by destruct (String.eqb k k0).
    + rewrite IH. destruct (String.eqb_spec k k') as [->|Hk]; [|done].
      apply String.eqb_neq in Hne. by rewrite Hne.
Qed.

Lemma duplicate_url_key_spec (k : string) :
  duplicate_url_key k = true <-> lower k = "url" /\ k <> "url".
Proof.
  unfold duplicate_url_key. rewrite andb_true_iff, negb_true_iff.
  by rewrite String.eqb_eq, String.eqb_neq.
Qed.

Lemma clean_keys_spec (keys : list string) (main_url : value)
    (settings : dict value) (needs_cleanup : bool) :
  NoDup keys ->
  (forall k, k ∈ keys -> duplicate_url_key k = true -> is_Some (dict_get k settings)) ->
  exists needed cleaned,
    clean_keys keys main_url settings needs_cleanup = (Ok needed, cleaned) /\
    (forall k, duplicate_url_key k = true ->
       dict_get k cleaned = if bool_decide (k ∈ keys) then None else dict_get k settings) /\
    (forall k, lower k <> "url" -> dict_get k cleaned = dict_get k settings) /\
    (truthy main_url = true -> dict_get "url" cleaned = dict_get "url" settings).
Proof.
  revert settings needs_cleanup.
  induction keys as [|key rest IH]; intros settings nc Hnd Hpresent; simpl.
  - exists nc, settings. by repeat split.
  - apply NoDup_cons in Hnd as [Hkey Hnd].
    destruct (duplicate_url_key key) eqn:Hdup.
    + destruct (Hpresent key (list_elem_of_here _ _) Hdup) as [v Hv]. rewrite Hv.
      apply duplicate_url_key_spec in Hdup as [Hlow Hne].
      set (s1 := if negb (truthy main_url) && truthy v
                 then dict_set "url" v settings else settings).
      assert (Hs1 : forall k, k <> "url" -> dict_get k s1 = dict_get k settings).
      { intros k Hk. subst s1. destruct (_ && _); [by apply dict_get_set_ne | done]. }
      destruct (IH (dict_del key s1) true Hnd) as (needed & cleaned & Heq & Ha & Hb & Hc).
      { intros k Hin Hk. rewrite dict_get_del.
        destruct (String.eqb_spec k key) as [->|_]; [done|].
        apply duplicate_url_key_spec in Hk as Hk'. destruct Hk' as [_ Hk'].
        rewrite Hs1 by done. apply Hpresent; [by apply list_elem_of_further | done]. }
      exists needed, cleaned. split; [exact Heq|]. split; [|split].
      * intros k Hk. rewrite (Ha k Hk), dict_get_del.
        apply duplicate_url_key_spec in Hk as Hk'. destruct Hk' as [_ Hk'].
        destruct (String.eqb_spec k key) as [->|Hkk].
        -- rewrite (bool_decide_eq_true_2 (key ∈ key :: rest))
             by apply list_elem_of_here.
           by destruct (bool_decide (key ∈ rest)).
        -- rewrite Hs1 by done.
           destruct (bool_decide_reflect (k ∈ rest)) as [Hin|Hin].
           ++ by rewrite bool_decide_eq_true_2 by (by apply list_elem_of_further).
           ++ rewrite bool_decide_eq_false_2; [done|].
              intros H. apply elem_of_cons in H as [->|H]; done.
      * intros k Hk. rewrite (Hb k Hk), dict_get_del.
        destruct (String.eqb_spec k key) as [->|_]; [done|].
        apply Hs1. intros ->. by apply Hk.
      * intros Ht. rewrite (Hc Ht), dict_get_del.
        destruct (String.eqb_spec "url" key) as [<-|_]; [done|].
        subst s1. by rewrite Ht.
    + destruct (IH settings nc Hnd) as (needed & cleaned & Heq & Ha & Hb & Hc).
      { intros k Hin Hk. apply Hpresent; [by apply list_elem_of_further | done]. }
      exists needed, cleaned. split; [exact Heq|]. split; [|done].
      intros k Hk. rewrite (Ha k Hk).
      destruct (bool_decide_reflect (k ∈ rest)) as [Hin|Hin].
      * by rewrite bool_decide_eq_true_2 by (by apply list_elem_of_further).
      * rewrite bool_decide_eq_false_2; [done|].
        intros H. apply elem_of_cons in H as [->|H]; [congruence | done].
Qed.

Lemma save_settings_frame (app_name : string) (settings : dict value) (m : AppManager) :
  exists ok m',
    save_settings app_name settings m = (Ok ok, m') /\
    same_runtime m m' /\
    (apps m = [] -> m' = m).
Proof.
  unfold save_settings.
  destruct (dict_get app_name (apps m)) as [info|] eqn:E.
  - destruct (serialisable settings); eexists _, _; (split; [reflexivity|]);
      (split; [by repeat split|]); intros H; rewrite H in E; discriminate.
  - by eexists _, _.
Qed.

Lemma same_runtime_refl (m : AppManager) : same_runtime m m.
Proof. by repeat split. Qed.

Lemma same_runtime_trans (m1 m2 m3 : AppManager) :
  same_runtime m1 m2 -> same_runtime m2 m3 -> same_runtime m1 m3.
Proof. unfold same_runtime. intros H1 H2. destruct_and!. repeat split; congruence. Qed.

Lemma clean_duplicate_url_parameters_spec (app_name settings_path : string)
    (settings : dict value) (m : AppManager) :
  wf_dict settings ->
  exists cleaned m',
    clean_duplicate_url_parameters app_name settings_path settings m = (Ok cleaned, m') /\
    (forall k, duplicate_url_key k = true -> dict_get k cleaned = None) /\
    (forall k, lower k <> "url" -> dict_get k cleaned = dict_get k settings) /\
    (forall url, dict_get "url" settings = Some url -> truthy url = true ->
                 dict_get "url" cleaned = Some url) /\
    same_runtime m m' /\
    (apps m = [] -> m' = m).
Proof.
  intros Hwf. unfold clean_duplicate_url_parameters.
  destruct (clean_keys_spec (dict_keys settings)
              (get_default "url" (PyStr "") settings) settings false Hwf)
    as (needed & cleaned & Heq & Ha & Hb & Hc).
  { intros k Hin _. destruct (dict_get k settings) eqn:E; [by eexists|].
    apply dict_get_None in E. by apply list_elem_of_In in Hin. }
  rewrite Heq.
  assert (Ha' : forall k, duplicate_url_key k = true -> dict_get k cleaned = None).
  { intros k Hk. rewrite (Ha k Hk).
    destruct (bool_decide_reflect (k ∈ dict_keys settings)) as [Hin|Hin]; [done|].
    apply dict_get_not_in. intros H. by apply Hin, list_elem_of_In. }
  assert (Hc' : forall url, dict_get "url" settings = Some url -> truthy url = true ->
                            dict_get "url" cleaned = Some url).
  { intros url Hurl Ht. rewrite Hc; [done|]. unfold get_default. by rewrite Hurl. }
  destruct needed.
  - destruct (save_settings_frame app_name cleaned m)
      as (ok & m' & Hsave & Hframe & Hempty).
    exists cleaned, m'. unfold bind. rewrite Hsave.
    do 4 (split; [done|]). by split.
  - exists cleaned, m. do 4 (split; [done|]). split; [apply same_runtime_refl | done].
Qed.

(** X4.  [clean_duplicate_url_parameters] never raises; in the dictionary it
    leaves, no key other than [url] itself is [url] in another letter case,
    a non-empty main [url] keeps its value, and every entry whose key is not
    a spelling of [url] is as before.  Saving the result may change files,
    definitions and the log, never the registry, timers or schedules. *)
Theorem clean_duplicate_url_parameters_result (app_name settings_path : string)
    (settings : dict value) (m : AppManager) :
  wf_dict settings ->
  exists cleaned m',
    clean_duplicate_url_parameters app_name settings_path settings m = (Ok cleaned, m') /\
    (forall k, duplicate_url_key k = true -> dict_get k cleaned = None) /\
    (forall k, lower k <> "url" -> dict_get k cleaned = dict_get k settings) /\
    (forall url, dict_get "url" settings = Some url -> truthy url = true ->
                 dict_get "url" cleaned = Some url) /\
    same_runtime m m'.
Proof.
  intros Hwf.
  destruct (clean_duplicate_url_parameters_spec app_name settings_path settings m Hwf)
    as (cleaned & m' & H1 & H2 & H3 & H4 & H5 & _).
  by exists cleaned, m'.
Qed.

Lemma clean_duplicate_url_parameters_result_witness :
  let settings := dict_set "Url" (PyStr "http://b")
                    (dict_set "URL" (PyStr "http://a") default_settings) in
  wf_dict settings /\
  exists cleaned m',
    clean_duplicate_url_parameters "Ping" "apps/Ping/settings.xml" settings
      (ping_manager default_settings) = (Ok cleaned, m') /\
    dict_get "URL" cleaned = None /\
    dict_get "Url" cleaned = None /\
    dict_get "command" cleaned = Some (PyStr "").
Proof.
  intros settings.
  assert (Hwf : wf_dict settings).
  { unfold wf_dict. apply (bool_decide_unpack (NoDup (dict_keys settings))).
    by vm_compute. }
  split; [exact Hwf|].
  destruct (clean_duplicate_url_parameters_result "Ping" "apps/Ping/settings.xml"
              settings (ping_manager default_settings) Hwf)
    as (cleaned & m' & Heq & Ha & Hb & _).
  exists cleaned, m'. split; [exact Heq|].
  split; [by apply Ha|]. split; [by apply Ha|]. by rewrite Hb.
Defined.

Lemma wf_load_settings (settings_path : string) (m : AppManager) :
  wf_dict (load_settings settings_path m).
Proof.
  unfold load_settings.
  destruct (files m !! settings_path) as [[|root]|]; try apply wf_default_settings.
  pose proof (wf_load_elems root default_settings wf_default_settings) as H.
  destruct (load_elems root default_settings) as [[[]|e] d]; simpl in H; [|done].
  by apply wf_convert.
Qed.

Lemma load_dirs_spec (listing : list (string * bool)) (new_apps : dict app_info)
    (m : AppManager) :
  wf_dict new_apps ->
  (forall name info, dict_get name new_apps = Some info -> loaded_entry name info) ->
  exists apps' m',
    load_dirs listing new_apps m = (Ok apps', m') /\
    same_runtime m m' /\
    (apps m = [] -> m' = m) /\
    wf_dict apps' /\
    (forall name info, dict_get name apps' = Some info -> loaded_entry name info) /\
    (forall name, is_Some (dict_get name apps') <->
                  is_Some (dict_get name new_apps) \/ In (name, true) listing).
Proof.
  revert new_apps m.
  induction listing as [|[app_dir is_dir] rest IH]; intros new_apps m Hwf Hgood; simpl.
  - exists new_apps, m. split; [done|]. split; [apply same_runtime_refl|].
    do 3 (split; [done|]). intros name. tauto.
  - destruct is_dir.
    + unfold bind at 1.
      set (path := path_join (path_join APP_FOLDER app_dir) "settings.xml").
      destruct (clean_duplicate_url_parameters_spec app_dir path
                  (load_settings path m) m (wf_load_settings path m))
        as (cleaned & m1 & Hclean & Hdup & Hother & _ & Hframe & Hempty).
      unfold bind at 1. rewrite Hclean.
      set (info := mkAppInfo app_dir (path_join APP_FOLDER app_dir) path cleaned).
      destruct (IH (dict_set app_dir info new_apps) m1) as
        (apps' & m' & Heq & Hframe' & Hempty' & Hwf' & Hgood' & Hkeys).
      { by apply wf_dict_set. }
      { intros name info' Hget. rewrite dict_get_set in Hget.
        destruct (String.eqb_spec name app_dir) as [->|_]; [|by apply Hgood].
        injection Hget as <-. repeat split; try done.
        simpl. unfold launchable. rewrite !Hother by (by vm_compute).
        apply load_settings_launchable. }
      exists apps', m'. split; [exact Heq|].
      split; [by apply (same_runtime_trans m m1 m')|].
      split. { intros H. pose proof (Hempty H) as ->. by apply Hempty'. }
      split; [done|]. split; [done|].
      intros name. rewrite Hkeys, dict_get_set.
      destruct (String.eqb_spec name app_dir) as [->|Hne].
      * split; [intros _; right; by left | intros _; left; by eexists].
      * split; (intros [H|H]; [by left | right]).
        -- by right.
        -- destruct H as [H|H]; [congruence | done].
    + destruct (IH new_apps m Hwf Hgood) as
        (apps' & m' & Heq & Hframe' & Hempty' & Hwf' & Hgood' & Hkeys).
      exists apps', m'. do 5 (split; [done|]).
      intros name. rewrite Hkeys. split.
      * intros [H|H]; [by left | right; by right].
      * intros [H|[H|H]]; [by left | congruence | by right].
Qed.

Lemma load_apps_spec (listing : list (string * bool)) (m : AppManager) :
  exists m',
    load_apps listing m = (Ok tt, m') /\
    same_runtime m m' /\
    (apps m = [] -> files m' = files m) /\
    wf_dict (apps m') /\
    (forall name info, dict_get name (apps m') = Some info -> loaded_entry name info) /\
    (forall name, is_Some (dict_get name (apps m')) <-> In (name, true) listing).
Proof.
  destruct (load_dirs_spec listing [] m) as
    (apps' & m1 & Heq & Hframe & Hempty & Hwf & Hgood & Hkeys).
  { apply NoDup_nil_2. }
  { intros name info H. discriminate. }
  unfold load_apps, bind. rewrite Heq. eexists. split; [reflexivity|]. simpl.
  split. { unfold same_runtime in *. simpl. exact Hframe. }
  split. { intros H. by rewrite (Hempty H). }
  split; [done|]. split; [done|].
  intros name. rewrite Hkeys. split; [|by right].
  intros [[x H]|H]; [discriminate | done].
Qed.

(** X5.  [load_apps] never raises and reloads the definitions only: the
    process registry, the process objects, the pending timers, the schedule
    map, the library's jobs and the sink are exactly as before, so a running
    application stays registered even when its directory is gone, and
    schedules stay as they are until [setup_schedules] is called. *)
Theorem load_apps_keeps_runtime (listing : list (string * bool)) (m : AppManager) :
  exists m',
    load_apps listing m = (Ok tt, m') /\
    processes m' = processes m /\
    heap m' = heap m /\
    timers m' = timers m /\
    schedules m' = schedules m /\
    jobs m' = jobs m /\
    sink m' = sink m /\
    forall name, is_app_running name m' = is_app_running name m.
Proof.
  destruct (load_apps_spec listing m) as (m' & Heq & Hframe & _).
  destruct Hframe as (Hp & Hh & Ht & Hs & Hj & Hk & _).
  exists m'. repeat split; try done.
  intros name. unfold is_app_running. by rewrite Hp.
Qed.

(** X6.  After [load_apps] the definitions are exactly the directories of
    the listing, one entry per name; each entry carries its name, the paths
    [apps/<name>] and [apps/<name>/settings.xml], settings in which [path]
    and [command] are present, each a string or [None] (the loader leaves
    [None] when it stops on an exception), and no duplicate of the [url]
    key. *)
Theorem load_apps_definitions (listing : list (string * bool)) (m : AppManager) :
  let m' := (load_apps listing m).2 in
  wf_dict (apps m') /\
  (forall name, is_Some (dict_get name (apps m')) <-> In (name, true) listing) /\
  (forall name info,
     dict_get name (apps m') = Some info ->
     ai_name info = name /\
     ai_path info = "apps/" ++ name /\
     ai_settings_path info = "apps/" ++ name ++ "/settings.xml" /\
     launchable (ai_settings info) = true /\
     forall k, duplicate_url_key k = true -> dict_get k (ai_settings info) = None).
Proof.
  destruct (load_apps_spec listing m) as (m' & Heq & _ & _ & Hwf & Hgood & Hkeys).
  rewrite Heq. simpl. split; [done|]. split; [done|].
  intros name info Hget. destruct (Hgood name info Hget) as (H1 & H2 & H3 & H4 & H5).
  split; [done|]. split; [done|]. split; [|by split].
  rewrite H3. reflexivity.
Qed.

(** X7.  Building the manager never writes a settings file: when the
    definitions are still empty, as they are in the constructor,
    [load_apps] leaves every file as it is; duplicates of [url] are removed
    in memory only.  A fresh manager has no process, timer or schedule. *)
Theorem init_keeps_disk (listing : list (string * bool)) (disk : gmap string file) :
  files (init listing disk) = disk /\
  processes (init listing disk) = ∅ /\
  timers (init listing disk) = [] /\
  schedules (init listing disk) = ∅.
Proof.
  unfold init.
  destruct (load_apps_spec listing (mkAppManager [] ∅ ∅ None [] [] [] [] [] disk))
    as (m' & Heq & Hframe & Hfiles & _).
  rewrite Heq. simpl. destruct Hframe as (Hp & _ & Ht & Hs & _).
  split; [by apply Hfiles|]. by repeat split.
Qed.

Section LoadThenStart.

Variable spawn : Qt.launch -> bool.

(** X8.  After [load_apps], [start_app] never raises, whatever the name and
    whatever the settings files hold: it returns [True] or [False]. *)
Theorem start_app_after_load_apps (listing : list (string * bool)) (m : AppManager)
    (app_name : string) :
  exists ok m',
    start_app spawn app_name (load_apps listing m).2 = (Ok ok, m').
Proof.
  destruct (load_apps_spec listing m) as (m1 & Heq & _ & _ & _ & Hgood & _).
  rewrite Heq. simpl.
  destruct (processes m1 !! app_name) as [h|] eqn:Hp.
  { eexists _, _. by apply (start_app_running spawn m1 app_name h). }
  destruct (dict_get app_name (apps m1)) as [info|] eqn:Ha.
  2:{ eexists _, _. by apply start_app_not_found. }
  destruct (Hgood app_name info Ha) as (_ & _ & _ & Hl & _).
  destruct (launchable_fields _ Hl) as (path & command & Hpath & Hcmd & Tp & Tc).
  destruct (truthy command) eqn:Ht.
  - destruct (text_value_truthy _ Tc Ht) as (s & -> & Hs).
    destruct (start_app_launch spawn m1 app_name info path s Ha Hp Hpath Hcmd Tp Hs)
      as (call & _ & Hstart).
    eexists _, _. exact Hstart.
  - eexists _, _. by apply (start_app_no_command spawn m1 app_name info path command).
Qed.

End LoadThenStart.

(** ** The registry over several calls *)

Section RegistryFrames.

Variable spawn : Qt.launch -> bool.

(** What a call of [start_app] can change, whether it returns or raises. *)
Lemma start_app_effect (m : AppManager) (app_name : string)
    (r : result bool) (m' : AppManager) :
  start_app spawn app_name m = (r, m') ->
  apps m' = apps m /\ schedules m' = schedules m /\ timers m' = timers m /\
  jobs m' = jobs m /\ sink m' = sink m /\ files m' = files m /\
  last_schedule_time m' = last_schedule_time m /\
  ((r <> Ok true /\ processes m' = processes m /\ heap m' = heap m) \/
   (r = Ok true /\ processes m !! app_name = None /\
    processes m' = <[app_name := length (heap m)]> (processes m) /\
    exists p, heap m' = (heap m ++ [p])%list)).
Proof.
  unfold start_app.
  destruct (dict_get app_name (apps m)) as [info|];
    destruct (processes m !! app_name) as [h|] eqn:Hreg;
    try (intros [= <- <-]; repeat split; try done; by left).
  unfold bind, lift, getitem, print, modify, ret, as_str.
  destruct (dict_get "path" (ai_settings info)) as [path|];
    [|intros [= <- <-]; repeat split; try done; by left].
  destruct (dict_get "command" (ai_settings info)) as [command|];
    destruct path as [|dir|b|n]; simpl;
    repeat match goal with
           | |- context [if ?b then _ else _] => destruct b; simpl
           end;
    try (intros [= <- <-]; repeat split; try done; by left);
    destruct command as [|command|b'|n']; simpl;
    try (intros [= <- <-]; repeat split; try done; by left);
    (destruct (launch_call command); simpl;
     [|intros [= <- <-]; repeat split; try done; by left]);
    intros [= <- <-]; simpl; repeat split; try done;
    right; rewrite !alter_last; repeat split; try done; by eexists.
Qed.

(** X9.  [start_app] never touches the definitions, the schedules, the
    timers, the sink or the files; it never removes or replaces a registry
    entry, and never changes a process object that exists already. *)
Theorem start_app_keeps_the_rest (m : AppManager) (app_name : string) :
  let m' := (start_app spawn app_name m).2 in
  apps m' = apps m /\ schedules m' = schedules m /\ timers m' = timers m /\
  jobs m' = jobs m /\ sink m' = sink m /\ files m' = files m /\
  (forall name h, processes m !! name = Some h -> processes m' !! name = Some h) /\
  (forall h p, heap m !! h = Some p -> heap m' !! h = Some p).
Proof.
  destruct (start_app spawn app_name m) as [r m'] eqn:E. simpl.
  destruct (start_app_effect m app_name r m' E)
    as (H1 & H2 & H3 & H4 & H5 & H6 & _ & Hcases).
  do 6 (split; [done|]).
  destruct Hcases as [(_ & Hp & Hh)|(_ & Hnone & Hp & p & Hh)].
  - rewrite Hp, Hh. by split.
  - rewrite Hp, Hh. split.
    + intros name h Hname. rewrite lookup_insert_ne; [done|]. congruence.
    + intros h q Hq. by apply lookup_app_l_Some.
Qed.

(** X10.  Starting or stopping one application never changes whether
    another one is registered as running. *)
Theorem other_applications_unaffected (m : AppManager) (app_name other : string) :
  other <> app_name ->
  is_app_running other (start_app spawn app_name m).2 = is_app_running other m /\
  is_app_running other (stop_app app_name m).2 = is_app_running other m.
Proof.
  intros Hne. split.
  - destruct (start_app spawn app_name m) as [r m'] eqn:E. simpl.
    destruct (start_app_effect m app_name r m' E) as (_ & _ & _ & _ & _ & _ & _ & Hc).
    unfold is_app_running.
    destruct Hc as [(_ & -> & _)|(_ & _ & -> & _)]; [done|].
    by rewrite lookup_insert_ne.
  - unfold stop_app, is_app_running.
    destruct (processes m !! app_name); simpl; [|done].
    by rewrite lookup_delete_ne.
Qed.

Lemma stop_app_effect (m : AppManager) (app_name : string) :
  exists ok m',
    stop_app app_name m = (Ok ok, m') /\
    length (heap m') = length (heap m) /\
    (forall name h, processes m' !! name = Some h -> processes m !! name = Some h).
Proof.
  unfold stop_app. destruct (processes m !! app_name) as [h|] eqn:E.
  - eexists _, _. split; [reflexivity|]. simpl. split; [apply length_alter|].
    intros name h' H. by apply lookup_delete_Some in H as [_ H].
  - eexists _, _. split; [reflexivity|]. by split.
Qed.

(** X11.  The registry stays sound under [start_app], [stop_app] and the two
    deferred checks: every handle it holds names a process object, and no
    process object is registered under two names. *)
Theorem registry_ok_preserved (m : AppManager) (app_name : string) (process : handle) :
  registry_ok m ->
  registry_ok (start_app spawn app_name m).2 /\
  registry_ok (stop_app app_name m).2 /\
  registry_ok (check_process_terminated app_name process m).2 /\
  registry_ok (_ensure_process_killed app_name process m).2.
Proof.
  intros [Hvalid Hinj]. split; [|split; [|split]].
  - destruct (start_app spawn app_name m) as [r m'] eqn:E. simpl.
    destruct (start_app_effect m app_name r m' E) as (_ & _ & _ & _ & _ & _ & _ & Hc).
    destruct Hc as [(_ & Hp & Hh)|(_ & Hnone & Hp & p & Hh)].
    + unfold registry_ok. rewrite Hp, Hh. by split.
    + unfold registry_ok. rewrite Hp, Hh, length_app. simpl. split.
      * intros name h Hname. apply lookup_insert_Some in Hname as [[_ <-]|[_ Hname]].
        -- lia.
        -- apply Hvalid in Hname. lia.
      * intros n1 n2 h H1 H2.
        apply lookup_insert_Some in H1 as [[<- <-]|[Hn1 H1]];
          apply lookup_insert_Some in H2 as [[<- Heq]|[Hn2 H2]]; try done.
        -- apply Hvalid in H2. lia.
        -- apply Hvalid in H1. lia.
        -- by apply (Hinj n1 n2 h).
  - destruct (stop_app_effect m app_name) as (ok & m' & -> & Hlen & Hsub). simpl.
    split.
    + intros name h H. rewrite Hlen. by apply (Hvalid name), Hsub.
    + intros n1 n2 h H1 H2. apply (Hinj n1 n2 h); by apply Hsub.
  - unfold check_process_terminated, registry_ok, bind, print, modify, singleShot.
    destruct (negb (process_is_idle process m)); simpl; (split; [|done]).
    + intros name h H. rewrite length_alter. by apply (Hvalid name).
    + done.
  - unfold _ensure_process_killed, registry_ok, print, modify.
    by destruct (negb (process_is_idle process m)).
Qed.

Lemma registry_ok_ping_running : registry_ok ping_running.
Proof.
  assert (Hreg : processes ping_running = {["Ping" := 0%nat]}).
  { apply map_eq. intros k. destruct (decide (k = "Ping")) as [->|Hk].
    - by vm_compute.
    - rewrite lookup_singleton_ne by done.
      change (processes ping_running) with (<["Ping" := 0%nat]> (∅ : gmap string handle)).
      rewrite lookup_insert_ne by done. apply lookup_empty. }
  split.
  - intros name h H. rewrite Hreg in H.
    apply lookup_singleton_Some in H as [_ <-]. by vm_compute.
  - intros n1 n2 h H1 H2. rewrite Hreg in H1, H2.
    apply lookup_singleton_Some in H1 as [<- _].
    by apply lookup_singleton_Some in H2 as [<- _].
Qed.

End RegistryFrames.

Lemma other_applications_unaffected_witness :
  "Pong" <> "Ping" /\
  is_app_running "Pong" (start_app os_accepts "Ping" ping_running).2
    = is_app_running "Pong" ping_running /\
  is_app_running "Pong" (stop_app "Ping" ping_running).2
    = is_app_running "Pong" ping_running.
Proof.
  assert (H : "Pong" <> "Ping") by discriminate.
  split; [exact H|].
  exact (other_applications_unaffected os_accepts ping_running "Ping" "Pong" H).
Defined.

Lemma registry_ok_preserved_witness :
  registry_ok ping_running /\
  registry_ok (start_app os_accepts "Pong" ping_running).2 /\
  registry_ok (stop_app "Ping" ping_running).2.
Proof.
  split; [apply registry_ok_ping_running|].
  destruct (registry_ok_preserved os_accepts ping_running "Pong" 0%nat
              registry_ok_ping_running) as (H1 & _ & _ & _).
  destruct (registry_ok_preserved os_accepts ping_running "Ping" 0%nat
              registry_ok_ping_running) as (_ & H2 & _ & _).
  by split.
Defined.

(** ** Stopping: the deferred checks *)

(** X12.  The check queued by [stop_app] escalates at most once.  If the
    process is idle it only prints; otherwise it asks for a kill and queues
    exactly one final check.  The final check only prints: it queues
    nothing, asks for nothing and never retries.  Neither check touches the
    registry or the definitions. *)
Theorem termination_checks_escalate_once (m : AppManager) (app_name : string)
    (process : handle) :
  (exists m1,
     check_process_terminated app_name process m = (Ok tt, m1) /\
     processes m1 = processes m /\ apps m1 = apps m /\
     if process_is_idle process m
     then heap m1 = heap m /\ timers m1 = timers m
     else heap m1 = alter Qt.kill process (heap m) /\
          timers m1 = (timers m ++ [(500%nat, EnsureProcessKilled app_name process)])%list) /\
  (exists m2,
     _ensure_process_killed app_name process m = (Ok tt, m2) /\
     processes m2 = processes m /\ apps m2 = apps m /\
     heap m2 = heap m /\ timers m2 = timers m).
Proof.
  split.
  - unfold check_process_terminated, bind, print, modify, singleShot.
    destruct (process_is_idle process m); simpl; eexists; by repeat split.
  - unfold _ensure_process_killed, print, modify.
    destruct (process_is_idle process m); simpl; eexists; by repeat split.
Qed.

Section Restart.

Variable spawn : Qt.launch -> bool.

(** X13.  A restart within the grace window is safe from the pending check:
    after [stop_app] and a new [start_app], the registry holds a new process
    object, while the check queued by the stop still refers to the old one;
    running that check leaves the registry and the new object as they are. *)
Theorem restart_survives_pending_check (m : AppManager) (app_name : string)
    (old : handle) (info : app_info) (command : string) :
  registry_ok m ->
  processes m !! app_name = Some old ->
  dict_get app_name (apps m) = Some info ->
  launchable (ai_settings info) = true ->
  dict_get "command" (ai_settings info) = Some (PyStr command) ->
  command <> "" ->
  exists m1 m2 m3,
    stop_app app_name m = (Ok true, m1) /\
    start_app spawn app_name m1 = (Ok true, m2) /\
    processes m2 !! app_name = Some (length (heap m)) /\
    length (heap m) <> old /\
    In (500%nat, CheckProcessTerminated app_name old) (timers m2) /\
    check_process_terminated app_name old m2 = (Ok tt, m3) /\
    processes m3 = processes m2 /\
    heap m3 !! length (heap m) = heap m2 !! length (heap m).
Proof.
  intros [Hvalid _] Hreg Ha Hl Hcmd Hne.
  pose proof (Hvalid app_name old Hreg) as Hold.
  destruct (launchable_fields _ Hl) as (path & cv & Hpath & _ & Tp & _).
  set (m1 := (stop_app app_name m).2).
  assert (Hstop : stop_app app_name m = (Ok true, m1)).
  { unfold m1, stop_app. by rewrite Hreg. }
  assert (Hp1 : processes m1 !! app_name = None).
  { unfold m1, stop_app. rewrite Hreg. simpl. apply lookup_delete_eq. }
  assert (Hlen : length (heap m1) = length (heap m)).
  { unfold m1, stop_app. rewrite Hreg. simpl. apply length_alter. }
  assert (Ht1 : timers m1
                = (timers m ++ [(500%nat, CheckProcessTerminated app_name old)])%list).
  { unfold m1, stop_app. by rewrite Hreg. }
  assert (Ha1 : apps m1 = apps m).
  { unfold m1, stop_app. by rewrite Hreg. }
  destruct (start_app_launch spawn m1 app_name info path command) as (call & _ & Hstart);
    try done.
  { by rewrite Ha1. }
  rewrite Hlen in Hstart.
  match type of Hstart with _ = (_, ?s) => set (m2 := s) in * end.
  assert (Hreg2 : processes m2 !! app_name = Some (length (heap m)))
    by apply lookup_insert_eq.
  assert (Hqueued : In (500%nat, CheckProcessTerminated app_name old) (timers m2)).
  { simpl. rewrite Ht1. apply in_or_app. right. by left. }
  exists m1, m2.
  unfold check_process_terminated, bind, print, modify, singleShot.
  destruct (process_is_idle old m2); simpl;
    eexists; (split; [exact Hstop|]); (split; [exact Hstart|]);
    (split; [exact Hreg2|]); (split; [lia|]); (split; [exact Hqueued|]);
    (split; [reflexivity|]); simpl; (split; [done|]); [done|].
  rewrite list_lookup_alter_ne; [done|lia].
Qed.

End Restart.

Lemma restart_survives_pending_check_witness :
  registry_ok ping_running /\
  processes ping_running !! "Ping" = Some 0%nat /\
  dict_get "Ping" (apps ping_running) = Some (ping_info (ping_settings "ping localhost")) /\
  launchable (ping_settings "ping localhost") = true /\
  dict_get "command" (ping_settings "ping localhost") = Some (PyStr "ping localhost") /\
  "ping localhost" <> "" /\
  exists m1 m2 m3,
    stop_app "Ping" ping_running = (Ok true, m1) /\
    start_app os_accepts "Ping" m1 = (Ok true, m2) /\
    processes m2 !! "Ping" = Some 1%nat /\
    check_process_terminated "Ping" 0%nat m2 = (Ok tt, m3) /\
    heap m3 !! 1%nat = heap m2 !! 1%nat.
Proof.
  assert (Ha : processes ping_running !! "Ping" = Some 0%nat) by (by vm_compute).
  assert (Hb : dict_get "Ping" (apps ping_running)
               = Some (ping_info (ping_settings "ping localhost"))) by (by vm_compute).
  assert (Hc : launchable (ping_settings "ping localhost") = true) by (by vm_compute).
  assert (Hd : dict_get "command" (ping_settings "ping localhost")
               = Some (PyStr "ping localhost")) by (by vm_compute).
  assert (He : "ping localhost" <> "") by discriminate.
  split; [apply registry_ok_ping_running|].
  do 5 (split; [assumption|]).
  destruct (restart_survives_pending_check os_accepts ping_running "Ping" 0%nat
              (ping_info (ping_settings "ping localhost")) "ping localhost"
              registry_ok_ping_running Ha Hb Hc Hd He)
    as (m1 & m2 & m3 & H1 & H2 & H3 & _ & _ & H4 & _ & H5).
  by exists m1, m2, m3.
Defined.

(** ** Building the schedules *)

Section ScheduleFrames.

Variable job_accepted : Job -> bool.

(** What one turn of the loop of [setup_schedules] does to the schedule map
    and to the library's list of jobs. *)
Lemma schedule_app_effect (entry : string * app_info) (m : AppManager)
    (r : result unit) (m' : AppManager) :
  schedule_app job_accepted entry m = (r, m') ->
  apps m' = apps m /\
  ((exists job, planned_job entry = Ok (Some job) /\ job_accepted job = true /\
                r = Ok tt /\
                schedules m' = <[fst entry := job]> (schedules m) /\
                jobs m' = (jobs m ++ [job])%list) \/
   (schedules m' = schedules m /\ jobs m' = jobs m /\
    (r = Ok tt -> planned_job entry = Ok None))).
Proof.
  rewrite schedule_app_planned.
  destruct (planned_job entry) as [[job|]|e].
  - unfold add_job. destruct (job_accepted job) eqn:E; intros [= <- <-].
    + split; [done|]. left. by exists job.
    + split; [done|]. right. by repeat split.
  - intros [= <- <-]. split; [done|]. by right.
  - intros [= <- <-]. split; [done|]. right. by repeat split.
Qed.

Lemma planned_job_enabled (entry : string * app_info) (job : Job) :
  planned_job entry = Ok (Some job) ->
  truthy (get_default "schedule_enabled" (PyBool false) (ai_settings (snd entry))) = true /\
  (j_func job = ScheduledAppRun (fst entry) \/
   j_func job = CheckMonthlySchedule (fst entry)).
Proof.
  unfold planned_job.
  destruct (truthy (get_default "schedule_enabled" _ _)); [|discriminate].
  intros H. split; [done|]. revert H.
  repeat match goal with
         | |- context [if ?b then _ else _] => destruct b
         end;
    repeat match goal with
           | |- context [match ?r with Ok _ => _ | Exn _ => _ end] => destruct r
           end;
    intros [= <-]; simpl; tauto.
Qed.

(** X14.  [setup_schedules] starts from nothing: whatever jobs were there
    before, and whether it returns or raises, a job found afterwards under a
    name belongs to a loaded definition of that name whose
    [schedule_enabled] is true, and runs that application. *)
Theorem setup_schedules_only_enabled (m : AppManager) (app_name : string) (job : Job) :
  schedules (setup_schedules job_accepted m).2 !! app_name = Some job ->
  exists info,
    In (app_name, info) (apps m) /\
    truthy (get_default "schedule_enabled" (PyBool false) (ai_settings info)) = true /\
    (j_func job = ScheduledAppRun app_name \/ j_func job = CheckMonthlySchedule app_name).
Proof.
  unfold setup_schedules, bind, modify. simpl.
  destruct (for_each (schedule_app job_accepted) (apps m) _) as [r m'] eqn:E. simpl.
  intros Hjob.
  destruct (for_each_job_origin job_accepted _ _ _ _ _ _ E Hjob)
    as [Hempty|(info & Hin & Hpl)].
  - simpl in Hempty. by rewrite lookup_empty in Hempty.
  - exists info. split; [done|]. by apply (planned_job_enabled (app_name, info)).
Qed.

Lemma for_each_app (l1 l2 : dict app_info) (m : AppManager) :
  for_each (schedule_app job_accepted) (l1 ++ l2)%list m =
    match for_each (schedule_app job_accepted) l1 m with
    | (Ok _, m1) => for_each (schedule_app job_accepted) l2 m1
    | (Exn e, m1) => (Exn e, m1)
    end.
Proof.
  revert m. induction l1 as [|entry l1 IH]; intros m; simpl; [done|].
  unfold bind.
  destruct (schedule_app job_accepted entry m) as [[[]|e] m1]; [apply IH | done].
Qed.

(** X15.  One refused job stops the whole build.  If the library raises on
    the job of one definition while those listed before it were handled
    without an exception, [setup_schedules] raises, and neither that
    definition nor any definition listed only after it has a job. *)
Theorem setup_schedules_stops_at_refused_job (m : AppManager)
    (before after : dict app_info) (app_name : string) (info : app_info) (job : Job) :
  apps m = (before ++ (app_name, info) :: after)%list ->
  (forall entry s, In entry before ->
     exists s', schedule_app job_accepted entry s = (Ok tt, s')) ->
  planned_job (app_name, info) = Ok (Some job) ->
  job_accepted job = false ->
  exists m',
    setup_schedules job_accepted m = (Exn ScheduleValueError, m') /\
    forall name, ~ In name (dict_keys before) -> schedules m' !! name = None.
Proof.
  intros Happs Hbefore Hpl Hrefused.
  unfold setup_schedules, bind, modify. simpl. rewrite Happs.
  set (m0 := with_schedules _ _).
  rewrite for_each_app.
  assert (Hloop : forall l s, (forall entry, In entry l -> In entry before) ->
            exists s', for_each (schedule_app job_accepted) l s = (Ok tt, s')).
  { induction l as [|entry l IH]; intros s Hsub; simpl; [by eexists|].
    destruct (Hbefore entry s (Hsub entry (or_introl eq_refl))) as [s1 H1].
    unfold bind. rewrite H1. apply IH. intros e He. apply Hsub. by right. }
  destruct (Hloop before m0 (fun _ H => H)) as [m1 H1]. rewrite H1.
  simpl. unfold bind at 1.
  rewrite schedule_app_planned, Hpl. simpl. unfold add_job. rewrite Hrefused.
  eexists. split; [reflexivity|].
  intros name Hname.
  rewrite (for_each_other_names job_accepted before m0 _ m1 name H1 Hname).
  apply lookup_empty.
Qed.

(** X16.  When the definitions have distinct names, the schedule map and
    the library's list of jobs agree after [setup_schedules], whether it
    returns or raises: every job of the map is in the list, and the list is
    as long as the map is large. *)
Theorem setup_schedules_map_and_list_agree (m : AppManager) :
  wf_dict (apps m) ->
  let m' := (setup_schedules job_accepted m).2 in
  (forall name job, schedules m' !! name = Some job -> In job (jobs m')) /\
  length (jobs m') = size (schedules m').
Proof.
  intros Hwf. unfold setup_schedules, bind, modify. simpl.
  set (m0 := with_schedules _ _).
  assert (Hinv : forall l s,
            NoDup (dict_keys l) ->
            (forall name, In name (dict_keys l) -> schedules s !! name = None) ->
            (forall name job, schedules s !! name = Some job -> In job (jobs s)) ->
            length (jobs s) = size (schedules s) ->
            let s' := (for_each (schedule_app job_accepted) l s).2 in
            (forall name job, schedules s' !! name = Some job -> In job (jobs s')) /\
            length (jobs s') = size (schedules s')).
  { induction l as [|[k info] l IH]; intros s Hnd Hfresh Hin Hlen; simpl; [done|].
    apply NoDup_cons in Hnd as [Hk Hnd]. unfold bind.
    destruct (schedule_app job_accepted (k, info) s) as [r s1] eqn:E.
    destruct (schedule_app_effect _ _ _ _ E)
      as (_ & [(job & _ & _ & -> & Hs & Hj)|(Hs & Hj & _)]).
    - cbv zeta in IH. cbv zeta. cbn iota. apply IH; [done|..].
      + intros name Hname. rewrite Hs. simpl. rewrite lookup_insert_ne.
        * apply Hfresh. by right.
        * intros <-. by apply Hk, list_elem_of_In.
      + intros name job' Hjob. rewrite Hs in Hjob. rewrite Hj.
        apply in_or_app. simpl in Hjob.
        apply lookup_insert_Some in Hjob as [[_ <-]|[_ Hjob]];
          [right; by left | left; by apply (Hin name)].
      + rewrite Hs, Hj, length_app. simpl.
        rewrite map_size_insert_None; [lia|]. apply Hfresh. by left.
    - assert (Hs1 : (forall name job, schedules s1 !! name = Some job -> In job (jobs s1))
                    /\ length (jobs s1) = size (schedules s1)).
      { rewrite Hs, Hj. by split. }
      destruct r as [[]|e]; [|exact Hs1].
      cbv zeta in IH. cbv zeta. cbn iota. apply IH; [done| |tauto|tauto].
      intros name Hname. rewrite Hs. apply Hfresh. by right. }
  apply Hinv.
  - exact Hwf.
  - intros name _. apply lookup_empty.
  - intros name job H. simpl in H. by rewrite lookup_empty in H.
  - simpl. by rewrite map_size_empty.
Qed.

(** X17.  An enabled definition that gives neither a schedule type, nor an
    interval, gets the defaults of the code: a job that runs it every 60
    minutes. *)
Theorem setup_schedules_defaults (m : AppManager) (app_name : string) (info : app_info)
    (enabled : value) :
  wf_dict (apps m) ->
  dict_get app_name (apps m) = Some info ->
  dict_get "schedule_enabled" (ai_settings info) = Some enabled ->
  truthy enabled = true ->
  dict_get "schedule_type" (ai_settings info) = None ->
  dict_get "interval_value" (ai_settings info) = None ->
  dict_get "interval_unit" (ai_settings info) = None ->
  forall r m',
    setup_schedules job_accepted m = (r, m') ->
    (r = Ok tt ->
     schedules m' !! app_name = Some (mkJob 60 Minutes None (ScheduledAppRun app_name))) /\
    (forall job, schedules m' !! app_name = Some job ->
                 job = mkJob 60 Minutes None (ScheduledAppRun app_name)).
Proof.
  intros Hwf Ha He Ht Htype Hval Hunit r m' Hsetup.
  apply (setup_schedules_job job_accepted m r m' app_name info); try done.
  unfold planned_job, get_default. simpl. by rewrite He, Ht, Htype, Hval, Hunit.
Qed.

(** X18.  An enabled Daily schedule is built as a job that runs the
    application every day at the configured time; a missing time is taken
    as 12:00. *)
Theorem setup_schedules_daily (m : AppManager) (app_name : string)
    (info : app_info) (time_str : string) :
  wf_dict (apps m) ->
  dict_get app_name (apps m) = Some info ->
  dict_get "schedule_enabled" (ai_settings info) = Some (PyBool true) ->
  dict_get "schedule_type" (ai_settings info) = Some (PyStr "Daily") ->
  get_default "schedule_time" (PyStr "12:00") (ai_settings info) = PyStr time_str ->
  forall r m',
    setup_schedules job_accepted m = (r, m') ->
    (r = Ok tt ->
     schedules m' !! app_name
       = Some (mkJob 1 Days (Some time_str) (ScheduledAppRun app_name))) /\
    (forall job, schedules m' !! app_name = Some job ->
                 job = mkJob 1 Days (Some time_str) (ScheduledAppRun app_name)).
Proof.
  intros Hwf Ha He Htype Htime r m' Hsetup.
  apply (setup_schedules_job job_accepted m r m' app_name info); try done.
  unfold planned_job. cbn [fst snd]. rewrite Htime. unfold get_default.
  by rewrite He, Htype.
Qed.

(** X22.  An enabled Weekly schedule asks the library for a job every week
    at the configured time.  The library refuses [at] on such a job, and
    then [setup_schedules] raises and the definition has no job. *)
Theorem setup_schedules_weekly_raises (m : AppManager) (app_name : string)
    (info : app_info) (time_str : string) :
  wf_dict (apps m) ->
  dict_get app_name (apps m) = Some info ->
  dict_get "schedule_enabled" (ai_settings info) = Some (PyBool true) ->
  dict_get "schedule_type" (ai_settings info) = Some (PyStr "Weekly") ->
  get_default "schedule_time" (PyStr "12:00") (ai_settings info) = PyStr time_str ->
  job_accepted (mkJob 1 Weeks (Some time_str) (ScheduledAppRun app_name)) = false ->
  planned_job (app_name, info)
    = Ok (Some (mkJob 1 Weeks (Some time_str) (ScheduledAppRun app_name))) /\
  exists e m',
    setup_schedules job_accepted m = (Exn e, m') /\
    schedules m' !! app_name = None.
Proof.
  intros Hwf Ha He Htype Htime Hrefused.
  assert (Hpl : planned_job (app_name, info)
                = Ok (Some (mkJob 1 Weeks (Some time_str) (ScheduledAppRun app_name)))).
  { unfold planned_job. cbn [fst snd]. rewrite Htime. unfold get_default.
    by rewrite He, Htype. }
  split; [exact Hpl|].
  apply dict_get_In in Ha. destruct (in_split _ _ Ha) as (before & after & Happs).
  assert (Hnot : ~ In app_name (dict_keys before)).
  { unfold wf_dict, dict_keys in *. rewrite Happs, map_app in Hwf. simpl in Hwf.
    apply NoDup_app in Hwf as (_ & Hdisj & _). intros Hin.
    apply (Hdisj app_name); [by apply list_elem_of_In | apply list_elem_of_here]. }
  unfold setup_schedules, bind, modify. simpl. rewrite Happs.
  set (m0 := with_schedules _ _).
  rewrite for_each_app.
  destruct (for_each (schedule_app job_accepted) before m0) as [[[]|e] m1] eqn:E.
  - simpl. unfold bind at 1.
    rewrite schedule_app_planned, Hpl. simpl. unfold add_job. rewrite Hrefused.
    eexists _, _. split; [reflexivity|].
    rewrite (for_each_other_names job_accepted before m0 _ m1 app_name E Hnot).
    apply lookup_empty.
  - exists e, m1. split; [reflexivity|].
    rewrite (for_each_other_names job_accepted before m0 _ m1 app_name E Hnot).
    apply lookup_empty.
Qed.

End ScheduleFrames.

Lemma setup_schedules_only_enabled_witness :
  let m := with_schedules (insert "Gone" (mkJob 1 Hours None (ScheduledAppRun "Gone")))
             (ping_manager (scheduled_settings "Interval" 5 "Minutes")) in
  schedules (setup_schedules library_accepts m).2 !! "Ping"
    = Some (mkJob 5 Minutes None (ScheduledAppRun "Ping")) /\
  schedules (setup_schedules library_accepts m).2 !! "Gone" = None /\
  exists info,
    In ("Ping", info) (apps m) /\
    truthy (get_default "schedule_enabled" (PyBool false) (ai_settings info)) = true.
Proof.
  intros m.
  assert (H : schedules (setup_schedules library_accepts m).2 !! "Ping"
              = Some (mkJob 5 Minutes None (ScheduledAppRun "Ping"))) by (by vm_compute).
  split; [exact H|]. split; [by vm_compute|].
  destruct (setup_schedules_only_enabled library_accepts m "Ping" _ H)
    as (info & Hin & Hen & _).
  by exists info.
Defined.

Lemma setup_schedules_stops_at_refused_job_witness :
  let before := [("Backup", mkAppInfo "Backup" "apps/Backup" "apps/Backup/settings.xml"
                              (scheduled_settings "Daily" 60 "Minutes"))] in
  let report := mkAppInfo "Report" "apps/Report" "apps/Report/settings.xml"
                  (scheduled_settings "Weekly" 60 "Minutes") in
  let after := [("Ping", ping_info (scheduled_settings "Interval" 5 "Minutes"))] in
  let job := mkJob 1 Weeks (Some "12:00") (ScheduledAppRun "Report") in
  apps three_apps = (before ++ ("Report", report) :: after)%list /\
  (forall entry s, In entry before ->
     exists s', schedule_app weekly_refused entry s = (Ok tt, s')) /\
  planned_job ("Report", report) = Ok (Some job) /\
  weekly_refused job = false /\
  exists m',
    setup_schedules weekly_refused three_apps = (Exn ScheduleValueError, m') /\
    schedules m' !! "Report" = None /\
    schedules m' !! "Ping" = None.
Proof.
  intros before report after job.
  assert (H1 : apps three_apps = (before ++ ("Report", report) :: after)%list)
    by reflexivity.
  assert (H2 : forall entry s, In entry before ->
                 exists s', schedule_app weekly_refused entry s = (Ok tt, s')).
  { intros entry s [<-|[]]. rewrite schedule_app_planned.
    eexists. reflexivity. }
  assert (H3 : planned_job ("Report", report) = Ok (Some job)) by reflexivity.
  assert (H4 : weekly_refused job = false) by reflexivity.
  do 4 (split; [assumption|]).
  destruct (setup_schedules_stops_at_refused_job weekly_refused three_apps
              before after "Report" report job H1 H2 H3 H4) as (m' & Heq & Hnone).
  exists m'. split; [exact Heq|].
  split; apply Hnone; simpl; intros [H|[]]; discriminate.
Defined.

Lemma setup_schedules_map_and_list_agree_witness :
  wf_dict (apps (ping_manager (scheduled_settings "Interval" 5 "Minutes"))) /\
  length (jobs (setup_schedules library_accepts
                  (ping_manager (scheduled_settings "Interval" 5 "Minutes"))).2)
    = size (schedules (setup_schedules library_accepts
                         (ping_manager (scheduled_settings "Interval" 5 "Minutes"))).2).
Proof.
  split; [apply wf_ping|].
  by destruct (setup_schedules_map_and_list_agree library_accepts
                 (ping_manager (scheduled_settings "Interval" 5 "Minutes"))
                 (wf_ping _)) as [_ H].
Defined.

Lemma setup_schedules_defaults_witness :
  let m := ping_manager [("schedule_enabled", PyStr "false")] in
  wf_dict (apps m) /\
  dict_get "Ping" (apps m) = Some (ping_info [("schedule_enabled", PyStr "false")]) /\
  dict_get "schedule_enabled" [("schedule_enabled", PyStr "false")] = Some (PyStr "false") /\
  truthy (PyStr "false") = true /\
  schedules (setup_schedules library_accepts m).2 !! "Ping"
    = Some (mkJob 60 Minutes None (ScheduledAppRun "Ping")).
Proof.
  intros m. split; [apply wf_ping|]. do 3 (split; [reflexivity|]).
  destruct (setup_schedules_defaults library_accepts m "Ping"
              (ping_info [("schedule_enabled", PyStr "false")]) (PyStr "false")
              (wf_ping _) eq_refl eq_refl eq_refl eq_refl eq_refl eq_refl
              _ _ (surjective_pairing _)) as [H _].
  apply H. by vm_compute.
Defined.

Lemma setup_schedules_daily_witness :
  let m := ping_manager (scheduled_settings "Daily" 60 "Minutes") in
  wf_dict (apps m) /\
  dict_get "Ping" (apps m) = Some (ping_info (scheduled_settings "Daily" 60 "Minutes")) /\
  dict_get "schedule_enabled" (scheduled_settings "Daily" 60 "Minutes")
    = Some (PyBool true) /\
  dict_get "schedule_type" (scheduled_settings "Daily" 60 "Minutes")
    = Some (PyStr "Daily") /\
  get_default "schedule_time" (PyStr "12:00") (scheduled_settings "Daily" 60 "Minutes")
    = PyStr "12:00" /\
  schedules (setup_schedules library_accepts m).2 !! "Ping"
    = Some (mkJob 1 Days (Some "12:00") (ScheduledAppRun "Ping")).
Proof.
  intros m. split; [apply wf_ping|]. do 4 (split; [reflexivity|]).
  destruct (setup_schedules_daily library_accepts m "Ping"
              (ping_info (scheduled_settings "Daily" 60 "Minutes")) "12:00"
              (wf_ping _) eq_refl eq_refl eq_refl eq_refl
              _ _ (surjective_pairing _)) as [H _].
  apply H. by vm_compute.
Defined.

Lemma setup_schedules_weekly_raises_witness :
  let m := ping_manager (scheduled_settings "Weekly" 60 "Minutes") in
  wf_dict (apps m) /\
  dict_get "Ping" (apps m) = Some (ping_info (scheduled_settings "Weekly" 60 "Minutes")) /\
  dict_get "schedule_enabled" (scheduled_settings "Weekly" 60 "Minutes")
    = Some (PyBool true) /\
  dict_get "schedule_type" (scheduled_settings "Weekly" 60 "Minutes")
    = Some (PyStr "Weekly") /\
  get_default "schedule_time" (PyStr "12:00") (scheduled_settings "Weekly" 60 "Minutes")
    = PyStr "12:00" /\
  weekly_refused (mkJob 1 Weeks (Some "12:00") (ScheduledAppRun "Ping")) = false /\
  exists e m',
    setup_schedules weekly_refused m = (Exn e, m') /\
    schedules m' !! "Ping" = None.
Proof.
  intros m. split; [apply wf_ping|]. do 5 (split; [reflexivity|]).
  exact (proj2 (setup_schedules_weekly_raises weekly_refused m "Ping"
                  (ping_info (scheduled_settings "Weekly" 60 "Minutes")) "12:00"
                  (wf_ping _) eq_refl eq_refl eq_refl eq_refl eq_refl)).
Defined.

(** ** Scheduled runs and their time stamp *)

Section Timestamp.

Variable spawn : Qt.launch -> bool.
Variable process_events : AppManager -> AppManager.

(** X19.  The time stamp of a scheduled run is kept in one field of the
    manager.  When two runs are posted before the first is processed (no
    event is handled in between), processing the first one reports it to
    the sink with the time of the second, and reports nothing else. *)
Theorem scheduled_runs_share_timestamp (m : AppManager) (first second : string)
    (now1 now2 : datetime) :
  (forall s, process_events s = s) ->
  let m2 := (scheduled_app_run process_events second now2
               (scheduled_app_run process_events first now1 m).2).2 in
  timers m2 = (timers m ++ [(0%nat, ScheduledRunMainThread first);
                            (0%nat, ScheduledRunMainThread second)])%list /\
  sink (_scheduled_app_run_main_thread spawn process_events first m2).2
    = (sink m ++ [ScheduledRunObserved first (Some (dt_clock now2))])%list.
Proof.
  intros Hpe m2.
  assert (Hm2 : timers m2 = (timers m ++ [(0%nat, ScheduledRunMainThread first);
                                          (0%nat, ScheduledRunMainThread second)])%list
                /\ sink m2 = sink m /\ last_schedule_time m2 = Some (dt_clock now2)).
  { subst m2. unfold scheduled_app_run, bind, print, modify, singleShot, ret. simpl.
    rewrite !Hpe. simpl. by rewrite <- app_assoc. }
  destruct Hm2 as (Ht & Hs & Hl). split; [exact Ht|].
  unfold _scheduled_app_run_main_thread, bind at 1 2 3 4, print, modify,
    _update_terminal_for_scheduled_run. simpl. rewrite Hpe, Hl.
  match goal with |- context [is_app_running first ?s] => set (s1 := s) end.
  assert (Hs1 : sink s1 = (sink m ++ [ScheduledRunObserved first (Some (dt_clock now2))])%list).
  { subst s1. simpl. by rewrite Hs. }
  destruct (is_app_running first s1).
  - unfold stop_app, bind, print, modify, singleShot, ret. simpl.
    destruct (processes m2 !! first); simpl; exact Hs1.
  - unfold _start_and_show_app, bind, print, modify, singleShot. simpl.
    match goal with |- context [start_app spawn first ?s] => set (s2 := s) end.
    destruct (start_app spawn first s2) as [r s3] eqn:E.
    destruct (start_app_effect spawn s2 first r s3 E) as (_ & _ & _ & _ & Hsink & _).
    destruct r as [[|]|e]; simpl; by rewrite ?Hsink.
Qed.

End Timestamp.

Lemma scheduled_runs_share_timestamp_witness :
  (forall s, no_pending_events s = s) /\
  sink (_scheduled_app_run_main_thread os_accepts no_pending_events "Ping"
          (scheduled_app_run no_pending_events "Pong" (mkDatetime 1 "09:00:07")
             (scheduled_app_run no_pending_events "Ping" (mkDatetime 1 "09:00:00")
                ping_running).2).2).2
    = [ScheduledRunObserved "Ping" (Some "09:00:07")].
Proof.
  split; [done|].
  by destruct (scheduled_runs_share_timestamp os_accepts no_pending_events ping_running
                 "Ping" "Pong" (mkDatetime 1 "09:00:00") (mkDatetime 1 "09:00:07")
                 (fun s => eq_refl)) as [_ H].
Defined.

(** ** Launching *)

Lemma mem_In (x : string) (xs : list string) : mem x xs = true -> In x xs.
Proof.
  unfold mem. intros H. apply existsb_exists in H as (y & Hy & Heq).
  apply String.eqb_eq in Heq. by subst.
Qed.

(** X20.  For a command that is not a batch file and names the interpreter
    or a script, the argument vector of the launch holds [-u], provided the
    two characters [-u] occur nowhere in the command itself. *)
Theorem launch_call_python_flag (command : string) (call : Qt.start_call) :
  endswith (lower command) ".bat" || endswith (lower command) ".cmd" = false ->
  contains "python" (lower command) || endswith (lower command) ".py" = true ->
  contains "-u" command = false ->
  launch_call command = Some call ->
  exists program args, call = Qt.StartProgram program args /\ In "-u" args.
Proof.
  intros Hbat Hpy Hu. unfold launch_call. rewrite Hbat, Hpy, Hu.
  destruct (split command) as [|program args]; [discriminate|].
  rewrite andb_true_r.
  destruct (endswith (lower program) "python.exe" || _).
  - destruct (mem "-u" args) eqn:Hmem; simpl; intros [= Hcall]; subst call;
      eexists _, _; (split; [reflexivity|]); [by apply mem_In | by left].
  - destruct (endswith (lower program) ".py"); intros [= Hcall]; subst call;
      eexists _, _; (split; [reflexivity|]); by left.
Qed.

Lemma launch_call_python_flag_witness :
  endswith (lower "C:\Python\Python.EXE server.py") ".bat"
    || endswith (lower "C:\Python\Python.EXE server.py") ".cmd" = false /\
  contains "python" (lower "C:\Python\Python.EXE server.py")
    || endswith (lower "C:\Python\Python.EXE server.py") ".py" = true /\
  contains "-u" "C:\Python\Python.EXE server.py" = false /\
  launch_call "C:\Python\Python.EXE server.py"
    = Some (Qt.StartProgram "C:\Python\Python.EXE" ["-u"; "server.py"]) /\
  exists program args,
    Qt.StartProgram "C:\Python\Python.EXE" ["-u"; "server.py"]
      = Qt.StartProgram program args /\ In "-u" args.
Proof.
  do 4 (split; [reflexivity|]).
  exact (launch_call_python_flag "C:\Python\Python.EXE server.py" _
           eq_refl eq_refl eq_refl eq_refl).
Defined.

(** ** Custom elements of a settings file *)

Lemma load_elems_app (root1 root2 : list xml_elem) (d : dict value) :
  load_elems (root1 ++ root2) d =
    match load_elems root1 d with
    | (Ok _, d1) => load_elems root2 d1
    | (Exn e, d1) => (Exn e, d1)
    end.
Proof.
  revert d. induction root1 as [|elem rest IH]; intros d; simpl; [done|].
  destruct (String.eqb (e_tag elem) "parameters"); [|apply IH].
  destruct (load_params (e_children elem) d) as [[[]|e] d1]; [apply IH | done].
Qed.

(** X21.  A top-level element whose tag is neither [parameters] nor a
    standard field is loaded under its tag with its text as it is, [None]
    when it has no text; if it is the last element of the file, its value is
    the one kept, whatever came before under the same tag. *)
Theorem load_settings_last_element_wins (settings_path : string) (m : AppManager)
    (root : list xml_elem) (tag : string) (text : option string)
    (children : list xml_param) :
  files m !! settings_path = Some (Document (root ++ [mkElem tag text children])) ->
  all_named root = true ->
  tag <> "parameters" ->
  mem tag standard_keys = false ->
  dict_get tag (load_settings settings_path m) = Some (of_text text).
Proof.
  intros Hfile Hnamed Htag Hstd. unfold load_settings. rewrite Hfile, load_elems_app.
  pose proof (load_elems_named root default_settings Hnamed) as Hok.
  destruct (load_elems root default_settings) as [[[]|e] d1]; simpl in Hok;
    [|discriminate].
  simpl. apply String.eqb_neq in Htag. rewrite Htag.
  rewrite convert_lookup, converted_standard by done.
  apply dict_get_set_eq.
Qed.

Lemma load_settings_last_element_wins_witness :
  let m := ping_on_disk ([mkElem "api_key" (Some "old") []] ++ [mkElem "api_key" None []]) in
  files m !! "apps/Ping/settings.xml"
    = Some (Document ([mkElem "api_key" (Some "old") []] ++ [mkElem "api_key" None []])) /\
  all_named [mkElem "api_key" (Some "old") []] = true /\
  "api_key" <> "parameters" /\
  mem "api_key" standard_keys = false /\
  dict_get "api_key" (load_settings "apps/Ping/settings.xml" m) = Some PyNone.
Proof.
  intros m.
  assert (H1 : files m !! "apps/Ping/settings.xml"
               = Some (Document ([mkElem "api_key" (Some "old") []]
                                   ++ [mkElem "api_key" None []]))) by (by vm_compute).
  assert (H2 : "api_key" <> "parameters") by discriminate.
  split; [exact H1|]. split; [reflexivity|]. split; [exact H2|]. split; [reflexivity|].
  exact (load_settings_last_element_wins "apps/Ping/settings.xml" m
           [mkElem "api_key" (Some "old") []] "api_key" None [] H1 eq_refl H2 eq_refl).
Defined.
